(** * Aegis Quick Share: the background service worker, verified

    A shallow embedding of [src/background.js] and the properties of its
    share flow.

    - JavaScript strings are sequences of 16-bit code units ([jsstring]).
    - [encodeURIComponent] / [decodeURIComponent] follow the Encode and
      Decode abstract operations of ECMA-262 (they are platform built-ins
      that the worker calls).
    - The extension-side code ([copyToClipboard], [handleShareAction]) runs
      in a small monad that threads the log of platform calls and carries
      JavaScript exceptions; the platform's answers are an oracle.
    - The injected page-side code is a state transformer: the clipboard
      function on the clipboard of the page, [dispatchShareIntent] on a page
      (focused element with its interface and value mode, dispatched events,
      timers, uncaught exceptions). The native [value] setter follows the
      HTML standard. *)

From Stdlib Require Import ZArith List Bool String Ascii Lia.
Import ListNotations.

Local Open Scope Z_scope.

(* ================================================================== *)
(** ** Code units and strings *)

(** [norm_true] rebuilds a proof of [b = true] by evaluating [b]: on a closed
    code unit the range proof computes to [eq_refl]. *)
Definition norm_true {b : bool} (H : b = true) : b = true :=
  match b as b' return b' = true -> b' = true with
  | true => fun _ => eq_refl
  | false => fun H' => H'
  end H.

Module CodeUnit.

Definition in_range (z : Z) : bool := (0 <=? z) && (z <? 65536).

(** A UTF-16 code unit: an integer in [0, 0xFFFF]. *)
Record t : Type := mk { val : Z; range : in_range val = true }.

Definition mod_in_range (z : Z) : in_range (z mod 65536) = true :=
  andb_true_intro
    (conj (proj2 (Z.leb_le 0 (z mod 65536)) (proj1 (Z.mod_pos_bound z 65536 eq_refl)))
          (proj2 (Z.ltb_lt (z mod 65536) 65536) (proj2 (Z.mod_pos_bound z 65536 eq_refl)))).

(** ToUint16, as [String.fromCharCode] does. *)
Definition of_Z (z : Z) : t := mk (z mod 65536) (norm_true (mod_in_range z)).

Definition eqb (a b : t) : bool := val a =? val b.

Definition of_ascii (a : ascii) : t := of_Z (Z.of_N (N_of_ascii a)).

End CodeUnit.

Definition char16 : Type := CodeUnit.t.

(** A JavaScript string value. *)
Definition jsstring : Type := list char16.

(** A string literal of the source (ASCII). *)
Definition js (s : string) : jsstring := map CodeUnit.of_ascii (list_ascii_of_string s).
Arguments js s%_string.

(** [String.prototype.startsWith] (position 0). *)
Fixpoint startsWith (s search : jsstring) {struct search} : bool :=
  match search with
  | [] => true
  | c :: search' =>
      match s with
      | [] => false
      | d :: s' => CodeUnit.eqb d c && startsWith s' search'
      end
  end.

(** ToBoolean on a string: only the empty string is falsy. *)
Definition truthy (s : jsstring) : bool :=
  match s with [] => false | _ :: _ => true end.

(* ================================================================== *)
(** ** Completions: normal results and thrown exceptions *)

Inductive exn : Type :=
| URIError
| TypeError
| DOMException (name : string)   (* InvalidStateError, NotAllowedError, ... *)
| PlatformError (code : Z).      (* a rejection or throw of a chrome.* call *)

Inductive completion (A : Type) : Type :=
| Normal (a : A)
| Throw (e : exn).
Arguments Normal {A} a.
Arguments Throw {A} e.

(* ================================================================== *)
(** ** encodeURIComponent and decodeURIComponent (ECMA-262, Encode / Decode) *)

Module URI.

(** uriUnescaped: ASCII letters, decimal digits and [- _ . ! ~ * ' ( )]. *)
Definition is_alpha (c : Z) : bool :=
  ((65 <=? c) && (c <=? 90)) || ((97 <=? c) && (c <=? 122)).
Definition is_digit (c : Z) : bool := (48 <=? c) && (c <=? 57).
Definition is_mark (c : Z) : bool :=
  (c =? 45) || (c =? 95) || (c =? 46) || (c =? 33) || (c =? 126)
  || (c =? 42) || (c =? 39) || (c =? 40) || (c =? 41).
Definition uriUnescaped (c : Z) : bool := is_alpha c || is_digit c || is_mark c.

Definition is_lead (c : Z) : bool := (55296 <=? c) && (c <=? 56319).   (* D800..DBFF *)
Definition is_trail (c : Z) : bool := (56320 <=? c) && (c <=? 57343).  (* DC00..DFFF *)

(** UTF16SurrogatePairToCodePoint *)
Definition pair_to_code_point (lead trail : Z) : Z :=
  (lead - 55296) * 1024 + (trail - 56320) + 65536.

(** The UTF-8 transformation of a code point. *)
Definition utf8_encode (cp : Z) : list Z :=
  if cp <? 128 then [cp]
  else if cp <? 2048 then [192 + cp / 64; 128 + cp mod 64]
  else if cp <? 65536 then [224 + cp / 4096; 128 + (cp / 64) mod 64; 128 + cp mod 64]
  else [240 + cp / 262144; 128 + (cp / 4096) mod 64; 128 + (cp / 64) mod 64; 128 + cp mod 64].

(** An upper-case hexadecimal digit. *)
Definition hex_digit (d : Z) : char16 :=
  CodeUnit.of_Z (if d <? 10 then 48 + d else 55 + d).

Definition percent : char16 := CodeUnit.of_Z 37.

(** "%XY" for one octet. *)
Definition escape_octet (b : Z) : jsstring :=
  [percent; hex_digit (b / 16); hex_digit (b mod 16)].

Definition escape_octets (bs : list Z) : jsstring := flat_map escape_octet bs.

(** Encode(string, extraUnescaped) with an empty extraUnescaped set. The code
    point at the current index is read as CodePointAt does: a lead surrogate
    followed by a trail surrogate is one code point of two units, any other
    surrogate is unpaired and throws a URIError. *)
Fixpoint Encode (s : jsstring) : completion jsstring :=
  match s with
  | [] => Normal []
  | C :: rest =>
      let c := CodeUnit.val C in
      if uriUnescaped c then
        match Encode rest with
        | Normal R => Normal (C :: R)
        | Throw e => Throw e
        end
      else if is_trail c then Throw URIError
      else if is_lead c then
        match rest with
        | D :: rest' =>
            if is_trail (CodeUnit.val D) then
              match Encode rest' with
              | Normal R =>
                  Normal (escape_octets (utf8_encode (pair_to_code_point c (CodeUnit.val D))) ++ R)
              | Throw e => Throw e
              end
            else Throw URIError
        | [] => Throw URIError
        end
      else
        match Encode rest with
        | Normal R => Normal (escape_octets (utf8_encode c) ++ R)
        | Throw e => Throw e
        end
  end.

Definition encodeURIComponent (uriComponent : jsstring) : completion jsstring :=
  Encode uriComponent.

(** [String.prototype.isWellFormed]: no unpaired surrogate. *)
Fixpoint isWellFormed (s : jsstring) : bool :=
  match s with
  | [] => true
  | C :: rest =>
      let c := CodeUnit.val C in
      if is_trail c then false
      else if is_lead c then
        match rest with
        | D :: rest' => is_trail (CodeUnit.val D) && isWellFormed rest'
        | [] => false
        end
      else isWellFormed rest
  end.

(** ParseHexOctet: both cases of the letters are accepted. *)
Definition ParseHexDigit (c : Z) : option Z :=
  if (48 <=? c) && (c <=? 57) then Some (c - 48)
  else if (65 <=? c) && (c <=? 70) then Some (c - 55)
  else if (97 <=? c) && (c <=? 102) then Some (c - 87)
  else None.

Definition ParseHexOctet (a b : char16) : option Z :=
  match ParseHexDigit (CodeUnit.val a), ParseHexDigit (CodeUnit.val b) with
  | Some h, Some l => Some (16 * h + l)
  | _, _ => None
  end.

(** The number of leading 1 bits of an octet (5 stands for "more than 4"). *)
Definition leading_ones (B : Z) : nat :=
  if B <? 128 then 0%nat
  else if B <? 192 then 1%nat
  else if B <? 224 then 2%nat
  else if B <? 240 then 3%nat
  else if B <? 248 then 4%nat
  else 5%nat.

(** The inner loop of Decode: [j] more escaped octets. *)
Fixpoint read_continuation (j : nat) (s : jsstring) : completion (list Z * jsstring) :=
  match j with
  | O => Normal ([], s)
  | S j' =>
      match s with
      | p :: a :: b :: s' =>
          if CodeUnit.val p =? 37 then
            match ParseHexOctet a b with
            | Some B =>
                match read_continuation j' s' with
                | Normal (bs, s'') => Normal (B :: bs, s'')
                | Throw e => Throw e
                end
            | None => Throw URIError
            end
          else Throw URIError
      | _ => Throw URIError
      end
  end.

Definition is_cont (b : Z) : bool := (128 <=? b) && (b <? 192).

(** The code point of a valid UTF-8 sequence of 2 to 4 octets: continuation
    octets are 10xxxxxx, and overlong forms, surrogates and values above
    0x10FFFF are invalid. *)
Definition utf8_decode (octets : list Z) : option Z :=
  match octets with
  | [b0; b1] =>
      let cp := (b0 - 192) * 64 + (b1 - 128) in
      if is_cont b1 && (128 <=? cp) then Some cp else None
  | [b0; b1; b2] =>
      let cp := (b0 - 224) * 4096 + (b1 - 128) * 64 + (b2 - 128) in
      if is_cont b1 && is_cont b2 && (2048 <=? cp)
         && negb ((55296 <=? cp) && (cp <=? 57343))
      then Some cp else None
  | [b0; b1; b2; b3] =>
      let cp := (b0 - 240) * 262144 + (b1 - 128) * 4096 + (b2 - 128) * 64 + (b3 - 128) in
      if is_cont b1 && is_cont b2 && is_cont b3 && (65536 <=? cp) && (cp <=? 1114111)
      then Some cp else None
  | _ => None
  end.

(** UTF16EncodeCodePoint *)
Definition UTF16EncodeCodePoint (cp : Z) : jsstring :=
  if cp <=? 65535 then [CodeUnit.of_Z cp]
  else [CodeUnit.of_Z ((cp - 65536) / 1024 + 55296);
        CodeUnit.of_Z ((cp - 65536) mod 1024 + 56320)].

(** Decode(string, preserveEscapeSet) with an empty preserveEscapeSet. Each
    turn of the loop consumes at least one code unit, so [fuel] equal to the
    length of the string is never exhausted. *)
Fixpoint Decode_loop (fuel : nat) (s : jsstring) : completion jsstring :=
  match s with
  | [] => Normal []
  | C :: rest =>
      match fuel with
      | O => Throw URIError
      | S fuel' =>
          if CodeUnit.val C =? 37 then
            match rest with
            | a :: b :: rest' =>
                match ParseHexOctet a b with
                | None => Throw URIError
                | Some B =>
                    match leading_ones B with
                    | O =>
                        match Decode_loop fuel' rest' with
                        | Normal R => Normal (CodeUnit.of_Z B :: R)
                        | Throw e => Throw e
                        end
                    | S O => Throw URIError
                    | S (S (S (S (S _)))) => Throw URIError
                    | S n' =>
                        match read_continuation n' rest' with
                        | Throw e => Throw e
                        | Normal (bs, rest'') =>
                            match utf8_decode (B :: bs) with
                            | None => Throw URIError
                            | Some V =>
                                match Decode_loop fuel' rest'' with
                                | Normal R => Normal (UTF16EncodeCodePoint V ++ R)
                                | Throw e => Throw e
                                end
                            end
                        end
                    end
                end
            | _ => Throw URIError
            end
          else
            match Decode_loop fuel' rest with
            | Normal R => Normal (C :: R)
            | Throw e => Throw e
            end
      end
  end.

Definition decodeURIComponent (encoded : jsstring) : completion jsstring :=
  Decode_loop (List.length encoded) encoded.

End URI.


(* ================================================================== *)
(** ** Reading a query parameter back (the companion page's side) *)

Module Query.

(** The code units of [s] before the first [sep]. *)
Fixpoint take_until (sep : Z) (s : jsstring) : jsstring :=
  match s with
  | [] => []
  | c :: s' => if CodeUnit.val c =? sep then [] else c :: take_until sep s'
  end.

(** The code units of [s] after the first [sep], when there is one. *)
Fixpoint drop_through (sep : Z) (s : jsstring) : option jsstring :=
  match s with
  | [] => None
  | c :: s' => if CodeUnit.val c =? sep then Some s' else drop_through sep s'
  end.

(** [s] cut at every [sep]. *)
Fixpoint split_on (sep : Z) (s : jsstring) : list jsstring :=
  match s with
  | [] => [[]]
  | c :: s' =>
      if CodeUnit.val c =? sep then [] :: split_on sep s'
      else
        match split_on sep s' with
        | piece :: pieces => (c :: piece) :: pieces
        | [] => [[c]]
        end
  end.

Fixpoint string_eqb (a b : jsstring) : bool :=
  match a, b with
  | [], [] => true
  | c :: a', d :: b' => CodeUnit.eqb c d && string_eqb a' b'
  | _, _ => false
  end.

(** The query of an address: what lies between the first '?' and the
    fragment ('#'). *)
Definition search (address : jsstring) : option jsstring :=
  drop_through 63 (take_until 35 address).

(** The raw (still percent-encoded) value of the first parameter called
    [name]: the query is cut at '&', each piece at its first '='. *)
Fixpoint lookup (name : jsstring) (pieces : list jsstring) : option jsstring :=
  match pieces with
  | [] => None
  | piece :: pieces' =>
      if string_eqb (take_until 61 piece) name then
        match drop_through 61 piece with
        | Some v => Some v
        | None => Some []
        end
      else lookup name pieces'
  end.

Definition param (name address : jsstring) : option jsstring :=
  match search address with
  | Some q => lookup name (split_on 38 q)
  | None => None
  end.

End Query.

(* ================================================================== *)
(** ** The extension platform: tabs, calls, the log of effects *)

(** chrome.tabs.Tab, the fields the worker reads. [id] and [url] are
    optional in the platform's type. *)
Record Tab : Type := mkTab {
  id : option Z;
  url : option jsstring;
  windowId : Z
}.

(** The function handed to chrome.scripting.executeScript, with its args. *)
Inductive injected_func : Type :=
| clipboard_writeText (textToCopy : jsstring)
| dispatchShareIntent_in_page (url : jsstring).

Inductive call : Type :=
| scripting_executeScript (tabId : option Z) (func : injected_func)
| tabs_query (urlPattern : jsstring)
| tabs_update (tabId : option Z) (active : bool)
| windows_update (windowId : Z) (focused : bool)
| tabs_create (url : jsstring).

Inductive level : Type := log | warn | error.

Inductive event : Type :=
| Call (c : call)
| Console (l : level) (message : string) (err : option exn).

(** What the browser answers to each call: it resolves, or it rejects (or
    throws) with an error. The worker issues every call at most once per
    invocation, so an answer per call describes every combination of
    failures. *)
Record Platform : Type := mkPlatform {
  executeScript_result : option Z -> injected_func -> completion unit;
  query_result : jsstring -> completion (list Tab);
  tabs_update_result : option Z -> bool -> completion unit;
  windows_update_result : Z -> bool -> completion unit;
  create_result : jsstring -> completion unit
}.

(** A computation of the worker: it reads the platform's answers, extends
    the chronological log of effects, and completes normally or throws. *)
Definition Worker (A : Type) : Type :=
  Platform -> list event -> completion A * list event.

Definition ret {A : Type} (a : A) : Worker A := fun _ tr => (Normal a, tr).

Definition bind {A B : Type} (m : Worker A) (k : A -> Worker B) : Worker B :=
  fun P tr =>
    match m P tr with
    | (Normal a, tr') => k a P tr'
    | (Throw e, tr') => (Throw e, tr')
    end.

(** try { body } catch (error) { handler error } *)
Definition try_catch {A : Type} (body : Worker A) (handler : exn -> Worker A) : Worker A :=
  fun P tr =>
    match body P tr with
    | (Normal a, tr') => (Normal a, tr')
    | (Throw e, tr') => handler e P tr'
    end.

(** A built-in that may throw. *)
Definition lift {A : Type} (c : completion A) : Worker A := fun _ tr => (c, tr).

Definition emit (e : event) : Worker unit := fun _ tr => (Normal tt, tr ++ [e]).

Declare Scope worker_scope.
Delimit Scope worker_scope with worker.
Notation "x <- m ;; k" := (bind m (fun x => k))
  (at level 61, m at next level, right associativity) : worker_scope.
Notation "m ;; k" := (bind m (fun _ => k))
  (at level 61, right associativity) : worker_scope.
Notation "'try' body 'catch' handler" := (try_catch body handler)
  (at level 60, body at level 9, handler at level 9) : worker_scope.

(** [await chrome.scripting.executeScript({ target: { tabId }, func, args })] *)
Definition chrome_scripting_executeScript (tabId : option Z) (func : injected_func) : Worker unit :=
  fun P tr => (executeScript_result P tabId func, tr ++ [Call (scripting_executeScript tabId func)]).

(** [await chrome.tabs.query({ url })] *)
Definition chrome_tabs_query (urlPattern : jsstring) : Worker (list Tab) :=
  fun P tr => (query_result P urlPattern, tr ++ [Call (tabs_query urlPattern)]).

(** [await chrome.tabs.update(tabId, { active })] *)
Definition chrome_tabs_update (tabId : option Z) (active : bool) : Worker unit :=
  fun P tr => (tabs_update_result P tabId active, tr ++ [Call (tabs_update tabId active)]).

(** [await chrome.windows.update(windowId, { focused })] *)
Definition chrome_windows_update (wid : Z) (focused : bool) : Worker unit :=
  fun P tr => (windows_update_result P wid focused, tr ++ [Call (windows_update wid focused)]).

(** [await chrome.tabs.create({ url })] *)
Definition chrome_tabs_create (address : jsstring) : Worker unit :=
  fun P tr => (create_result P address, tr ++ [Call (tabs_create address)]).

Definition console_log (message : string) : Worker unit := emit (Console log message None).
Definition console_warn (message : string) : Worker unit := emit (Console warn message None).
Definition console_error (message : string) (e : exn) : Worker unit :=
  emit (Console error message (Some e)).
Arguments Console l message%_string err.
Arguments console_log message%_string.
Arguments console_warn message%_string.
Arguments console_error message%_string e.

(* ================================================================== *)
(** ** background.js: the worker *)

Local Open Scope worker_scope.

Definition APP_ORIGIN : jsstring := js "https://aegis-e31n.onrender.com".
Definition DASHBOARD_URL : jsstring := APP_ORIGIN ++ js "/dashboard/social".

Definition copyToClipboard (text : jsstring) (tabId : option Z) : Worker unit :=
  try
    (chrome_scripting_executeScript tabId (clipboard_writeText text) ;;
     console_log "Aegis Quick Share: URL copied to clipboard")
  catch
    (fun error => console_error "Aegis Quick Share: Failed to copy to clipboard" error).

(** The test of line 72 on a present address. *)
Definition not_shareable (currentUrl : jsstring) : bool :=
  negb (truthy currentUrl)
  || startsWith currentUrl (js "chrome://")
  || startsWith currentUrl (js "chrome-extension://").

(** The try region of [handleShareAction] (lines 80-109). *)
Definition share_region (currentUrl : jsstring) : Worker unit :=
  aegisTabs <- chrome_tabs_query (APP_ORIGIN ++ js "/*") ;;
  match aegisTabs with
  | aegisTab :: _ =>
      chrome_tabs_update (id aegisTab) true ;;
      chrome_windows_update (windowId aegisTab) true ;;
      chrome_scripting_executeScript (id aegisTab) (dispatchShareIntent_in_page currentUrl) ;;
      console_log "Aegis Quick Share: Dispatched share intent to existing tab"
  | [] =>
      encoded <- lift (URI.encodeURIComponent currentUrl) ;;
      let shareUrl := DASHBOARD_URL ++ js "?share_url=" ++ encoded in
      chrome_tabs_create shareUrl ;;
      console_log "Aegis Quick Share: Opened new Aegis tab with share URL"
  end.

Definition handleShareAction (tab : Tab) : Worker unit :=
  match url tab with
  | None => console_warn "Aegis Quick Share: Cannot share this page type"
  | Some currentUrl =>
      if not_shareable currentUrl then
        console_warn "Aegis Quick Share: Cannot share this page type"
      else
        copyToClipboard currentUrl (id tab) ;;
        try (share_region currentUrl)
        catch (fun error => console_error "Aegis Quick Share: Error during share action" error)
  end.

(** One click on the toolbar icon: the handler run from an empty log. *)
Definition run {A : Type} (m : Worker A) (P : Platform) : completion A * list event :=
  m P [].

Definition outcome (tab : Tab) (P : Platform) : completion unit := fst (run (handleShareAction tab) P).
Definition effects (tab : Tab) (P : Platform) : list event := snd (run (handleShareAction tab) P).

(** Projections of a log. *)
Definition calls (tr : list event) : list call :=
  flat_map (fun e => match e with Call c => [c] | Console _ _ _ => [] end) tr.

Definition created_tabs (tr : list event) : list jsstring :=
  flat_map (fun e => match e with Call (tabs_create u) => [u] | _ => [] end) tr.

Definition dispatcher_injections (tr : list event) : list (option Z * jsstring) :=
  flat_map (fun e => match e with
                     | Call (scripting_executeScript t (dispatchShareIntent_in_page u)) => [(t, u)]
                     | _ => [] end) tr.

Definition clipboard_writes (tr : list event) : list (option Z * jsstring) :=
  flat_map (fun e => match e with
                     | Call (scripting_executeScript t (clipboard_writeText u)) => [(t, u)]
                     | _ => [] end) tr.

Definition tab_queries (tr : list event) : list jsstring :=
  flat_map (fun e => match e with Call (tabs_query p) => [p] | _ => [] end) tr.

Definition focus_calls (tr : list event) : list call :=
  flat_map (fun e => match e with
                     | Call (tabs_update t a) => [tabs_update t a]
                     | Call (windows_update w f) => [windows_update w f]
                     | _ => [] end) tr.

Local Close Scope worker_scope.

(* ================================================================== *)
(** ** background.js: the function injected by copyToClipboard *)

Module Clipboard.

(** The page side of the clipboard write: what the system clipboard holds,
    and the promise rejections that nothing handles. *)
Record state : Type := mkState {
  contents : option jsstring;
  unhandled : list exn
}.

(** [navigator.clipboard.writeText(text)]: a promise, settled by the browser
    ([answer]): fulfilled, the clipboard holds [text]; rejected (no
    permission, document not focused), the clipboard is unchanged. Nothing is
    chained on the promise, so a rejection is an unhandled one. *)
Definition writeText (answer : completion unit) (text : jsstring) (s : state) : state :=
  match answer with
  | Normal _ => mkState (Some text) (unhandled s)
  | Throw e => mkState (contents s) (unhandled s ++ [e])
  end.

(** The arrow function of lines 52-54, [(textToCopy) => { navigator.clipboard
    .writeText(textToCopy); }]: the promise is neither returned nor awaited,
    the function returns undefined at once. *)
Definition clipboard_func (textToCopy : jsstring) (answer : completion unit) (s : state)
  : completion unit * state :=
  (Normal tt, writeText answer textToCopy s).

End Clipboard.

(* ================================================================== *)
(** ** background.js: the dispatcher, run inside the companion page *)

Module Page.

(** How the [value] setter of an input element behaves, by the state of its
    [type] attribute (HTML, "the input element", value modes):
    - value: the new value is stored and the value sanitization algorithm of
      the type is run on it (text, search, tel, password: line breaks are
      stripped; url, email, number, range, color, date, ...: their own
      algorithm, a function of the string);
    - default and default/on (hidden, submit, image, reset, button, checkbox,
      radio): the value attribute is set to the new value;
    - filename (file): the empty string empties the selection, anything else
      throws an InvalidStateError. *)
Inductive input_mode : Type :=
| mode_value (sanitize : jsstring -> jsstring)
| mode_default
| mode_filename.

(** The interface an element implements. *)
Inductive interface : Type :=
| HTMLInputElement (mode : input_mode)
| HTMLTextAreaElement
| other_interface.

(** A DOM element, as far as the dispatcher looks at it: its identity, its
    tag name, its interface and what its [value] getter returns. *)
Record element : Type := mkElement {
  node : nat;
  tagName : string;
  implements : interface;
  value : jsstring
}.

Definition with_value (el : element) (v : jsstring) : element :=
  mkElement (node el) (tagName el) (implements el) v.

(** The value sanitization algorithm of text, search, tel and password:
    strip newlines. *)
Definition strip_newlines (v : jsstring) : jsstring :=
  filter (fun c => negb ((CodeUnit.val c =? 10) || (CodeUnit.val c =? 13))) v.

(** The API value of a textarea: CR LF pairs and lone CRs become LF. *)
Fixpoint normalize_newlines (v : jsstring) : jsstring :=
  match v with
  | [] => []
  | c :: rest =>
      if CodeUnit.val c =? 13 then
        CodeUnit.of_Z 10 ::
        match rest with
        | d :: rest' =>
            if CodeUnit.val d =? 10 then normalize_newlines rest' else normalize_newlines rest
        | [] => []
        end
      else c :: normalize_newlines rest
  end.

Inductive prototype : Type :=
| HTMLInputElement_prototype
| HTMLTextAreaElement_prototype.

(** [Object.getOwnPropertyDescriptor(proto, 'value').set.call(el, v)]: what
    the [value] getter of [el] returns afterwards, or the exception thrown
    (a TypeError when [el] does not implement the interface of [proto]). *)
Definition call_value_setter (proto : prototype) (el : element) (v : jsstring)
  : completion jsstring :=
  match proto, implements el with
  | HTMLInputElement_prototype, HTMLInputElement (mode_value sanitize) => Normal (sanitize v)
  | HTMLInputElement_prototype, HTMLInputElement mode_default => Normal v
  | HTMLInputElement_prototype, HTMLInputElement mode_filename =>
      match v with
      | [] => Normal []
      | _ :: _ => Throw (DOMException "InvalidStateError")
      end
  | HTMLTextAreaElement_prototype, HTMLTextAreaElement => Normal (normalize_newlines v)
  | _, _ => Throw TypeError
  end.

Inductive target : Type :=
| window
| document
| on_element (el : element).

Inductive payload : Type :=
| no_payload
| detail (url : jsstring)                              (* CustomEvent: detail = { url } *)
| clipboardData (items : list (string * jsstring)).    (* a DataTransfer *)

(** A notification raised with dispatchEvent. *)
Record dom_event : Type := mkEvent {
  ev_target : target;
  ev_type : string;
  bubbles : bool;
  cancelable : bool;
  ev_payload : payload
}.

(** The callback handed to setTimeout: the arrow function of lines 17-40,
    closed over [url]. *)
Inductive task : Type :=
| auto_paste (url : jsstring).

(** The page: the focused element (null when there is none), the
    notifications raised so far, a clock, the pending timers, each with
    the time at which it is due, ordered by that time, and the exceptions
    that left a callback uncaught. *)
Record page : Type := mkPage {
  activeElement : option element;
  dispatched : list dom_event;
  now : Z;
  timers : list (Z * task);
  uncaught : list exn
}.

Definition dispatchEvent (e : dom_event) (p : page) : page :=
  mkPage (activeElement p) (dispatched p ++ [e]) (now p) (timers p) (uncaught p).

(** A timer goes in after the timers that are due no later than it is. *)
Fixpoint enqueue (due : Z) (t : task) (q : list (Z * task)) : list (Z * task) :=
  match q with
  | [] => [(due, t)]
  | (d, t') :: q' =>
      if d <=? due then (d, t') :: enqueue due t q' else (due, t) :: q
  end.

Definition setTimeout (t : task) (delay : Z) (p : page) : page :=
  mkPage (activeElement p) (dispatched p) (now p) (enqueue (now p + delay) t (timers p))
         (uncaught p).

(** The test of line 20 on a focused element: its tag name. *)
Definition input_or_textarea (el : element) : bool :=
  String.eqb (tagName el) "INPUT" || String.eqb (tagName el) "TEXTAREA".

(** The prototype whose setter line 23 picks. *)
Definition prototype_of (el : element) : prototype :=
  if String.eqb (tagName el) "INPUT" then HTMLInputElement_prototype
  else HTMLTextAreaElement_prototype.

(** The body of the delayed callback. An exception of the setter leaves the
    callback at line 26: line 29 is not reached. *)
Definition run_task (t : task) (p : page) : page :=
  match t with
  | auto_paste url =>
      match activeElement p with
      | Some el =>
          if input_or_textarea el then
            match call_value_setter (prototype_of el) el url with
            | Normal v =>
                let el' := with_value el v in
                dispatchEvent (mkEvent (on_element el') "input" true false no_payload)
                  (mkPage (Some el') (dispatched p) (now p) (timers p) (uncaught p))
            | Throw e =>
                mkPage (activeElement p) (dispatched p) (now p) (timers p) (uncaught p ++ [e])
            end
          else
            dispatchEvent
              (mkEvent document "paste" true true (clipboardData [("text/plain"%string, url)])) p
      | None =>
          dispatchEvent
            (mkEvent document "paste" true true (clipboardData [("text/plain"%string, url)])) p
      end
  end.

Definition dispatchShareIntent (url : jsstring) (p : page) : page :=
  let p1 := dispatchEvent (mkEvent window "AEGIS_SHARE_INTENT" false false (detail url)) p in
  setTimeout (auto_paste url) 100 p1.

(** The event loop: the timers due at [t], run in order. *)
Fixpoint fire (t : Z) (q : list (Z * task)) (p : page) : page :=
  match q with
  | [] => mkPage (activeElement p) (dispatched p) (now p) [] (uncaught p)
  | (d, k) :: q' =>
      if d <=? t then fire t q' (run_task k p)
      else mkPage (activeElement p) (dispatched p) (now p) q (uncaught p)
  end.

(** [dt] time units pass. *)
Definition advance (dt : Z) (p : page) : page :=
  let t := now p + dt in
  fire t (timers p) (mkPage (activeElement p) (dispatched p) t (timers p) (uncaught p)).

(** The page (its user, its own scripts) moves the focus. *)
Definition focus (el : option element) (p : page) : page :=
  mkPage el (dispatched p) (now p) (timers p) (uncaught p).

Definition events_of_type (ty : string) (l : list dom_event) : list dom_event :=
  filter (fun e => String.eqb (ev_type e) ty) l.

(** A single-line text field (an input of type text, search, tel or
    password) or a multi-line one (a textarea). *)
Definition text_field (el : element) : Prop :=
  (tagName el = "INPUT"%string /\ implements el = HTMLInputElement (mode_value strip_newlines))
  \/ (tagName el = "TEXTAREA"%string /\ implements el = HTMLTextAreaElement).

End Page.
(* ================================================================== *)
(** ** Sample tabs and platforms *)

Module Samples.

(** Every call resolves; no companion tab is open. *)
Definition no_companion : Platform :=
  mkPlatform (fun _ _ => Normal tt) (fun _ => Normal []) (fun _ _ => Normal tt)
             (fun _ _ => Normal tt) (fun _ => Normal tt).

Definition companion_tab : Tab :=
  mkTab (Some 7) (Some (js "https://aegis-e31n.onrender.com/dashboard")) 3.

Definition other_companion_tab : Tab :=
  mkTab (Some 9) (Some (js "https://aegis-e31n.onrender.com/dashboard/social")) 4.

(** Every call resolves; two companion tabs are open. *)
Definition companion_open : Platform :=
  mkPlatform (fun _ _ => Normal tt) (fun _ => Normal [companion_tab; other_companion_tab])
             (fun _ _ => Normal tt) (fun _ _ => Normal tt) (fun _ => Normal tt).

(** The companion tab is closed between the query and its activation. *)
Definition activation_fails : Platform :=
  mkPlatform (fun _ _ => Normal tt) (fun _ => Normal [companion_tab; other_companion_tab])
             (fun _ _ => Throw (PlatformError 1)) (fun _ _ => Normal tt) (fun _ => Normal tt).

(** The window of the companion tab cannot be focused. *)
Definition focus_fails : Platform :=
  mkPlatform (fun _ _ => Normal tt) (fun _ => Normal [companion_tab; other_companion_tab])
             (fun _ _ => Normal tt) (fun _ _ => Throw (PlatformError 2)) (fun _ => Normal tt).

(** Every injection is refused (the clipboard one and the dispatcher one). *)
Definition injection_fails : Platform :=
  mkPlatform (fun _ _ => Throw (PlatformError 3)) (fun _ => Normal [companion_tab])
             (fun _ _ => Normal tt) (fun _ _ => Normal tt) (fun _ => Normal tt).

(** Every call fails. *)
Definition all_fail : Platform :=
  mkPlatform (fun _ _ => Throw (PlatformError 3)) (fun _ => Throw (PlatformError 4))
             (fun _ _ => Throw (PlatformError 1)) (fun _ _ => Throw (PlatformError 2))
             (fun _ => Throw (PlatformError 5)).

Definition example_page : Tab := mkTab (Some 1) (Some (js "https://example.com/a?x=1&y=2")) 1.
Definition extensions_page : Tab := mkTab (Some 2) (Some (js "chrome://extensions/")) 1.
Definition blank_page : Tab := mkTab (Some 5) (Some (js "about:blank")) 1.
Definition no_address : Tab := mkTab (Some 6) None 1.

(** An address with an unpaired lead surrogate (U+D800). *)
Definition lone_surrogate : jsstring := js "https://example.com/" ++ [CodeUnit.of_Z 55296].
Definition ill_formed_page : Tab := mkTab (Some 8) (Some lone_surrogate) 1.

End Samples.

(** The addresses the orchestrator does not share: absent, empty, or
    beginning with the literal [chrome://] or [chrome-extension://]. *)
Definition internal_page (tab : Tab) : Prop :=
  url tab = None
  \/ url tab = Some []
  \/ (exists rest, url tab = Some (js "chrome://" ++ rest))
  \/ (exists rest, url tab = Some (js "chrome-extension://" ++ rest)).

(** No code unit of [s] is [sep]. *)
Definition avoids (sep : Z) (s : jsstring) : Prop :=
  Forall (fun c => CodeUnit.val c <> sep) s.

Module PageSamples.
Import Page.

(** <input type="text">, <textarea>, <body>. *)
Definition share_form : element :=
  mkElement 1 "INPUT" (HTMLInputElement (mode_value strip_newlines)) [].
Definition notes_area : element := mkElement 2 "TEXTAREA" HTMLTextAreaElement (js "draft").
Definition body : element := mkElement 0 "BODY" other_interface [].

(** <input type="checkbox" value="on">, <input type="file"> with nothing
    selected. *)
Definition remember_me : element := mkElement 3 "INPUT" (HTMLInputElement mode_default) (js "on").
Definition attachment : element := mkElement 4 "INPUT" (HTMLInputElement mode_filename) [].

(** A freshly loaded companion page, nothing raised, no timer pending. *)
Definition fresh : page := mkPage (Some body) [] 0 [] [].

End PageSamples.

(** The log of [copyToClipboard]: the injection, then one console line. *)
Definition clipboard_log (P : Platform) (text : jsstring) (tabId : option Z) : list event :=
  [ Call (scripting_executeScript tabId (clipboard_writeText text));
    match executeScript_result P tabId (clipboard_writeText text) with
    | Normal _ => Console log "Aegis Quick Share: URL copied to clipboard" None
    | Throw e => Console error "Aegis Quick Share: Failed to copy to clipboard" (Some e)
    end ].

(** An octet of a UTF-8 sequence. *)
Definition octet (b : Z) : Prop := 0 <= b < 256.

Module Failures.

(** No companion tab is open and the browser refuses to open a tab. *)
Definition creation_fails : Platform :=
  mkPlatform (fun _ _ => Normal tt) (fun _ => Normal []) (fun _ _ => Normal tt)
             (fun _ _ => Normal tt) (fun _ => Throw (PlatformError 5)).

(** The address of a page whose path holds U+00E9 and U+1F600. *)
Definition unicode_address : jsstring :=
  js "https://example.com/caf" ++ [CodeUnit.of_Z 233]
     ++ js "?q=" ++ [CodeUnit.of_Z 55357; CodeUnit.of_Z 56832] ++ js "&r=a+b#top".
Definition unicode_page : Tab := mkTab (Some 11) (Some unicode_address) 2.

(** The script is injected and runs, but the page refuses the clipboard
    write (NotAllowedError: the document is not focused). No companion tab is
    open. *)
Definition write_refused : Platform :=
  mkPlatform
    (fun _ func =>
       match func with
       | clipboard_writeText text =>
           fst (Clipboard.clipboard_func text (Throw (DOMException "NotAllowedError"))
                  (Clipboard.mkState None []))
       | dispatchShareIntent_in_page _ => Normal tt
       end)
    (fun _ => Normal []) (fun _ _ => Normal tt) (fun _ _ => Normal tt) (fun _ => Normal tt).

End Failures.

Module Sessions.
Import Page.

(** The dispatcher injected once per address, one after the other, before
    any time passes. *)
Definition dispatch_all (urls : list jsstring) (p : page) : page :=
  fold_left (fun q u => dispatchShareIntent u q) urls p.

(** The share intent raised for [u], and the "input" notification on [el]. *)
Definition share_intent (u : jsstring) : dom_event :=
  mkEvent window "AEGIS_SHARE_INTENT" false false (detail u).
Definition input_on (el : element) : dom_event :=
  mkEvent (on_element el) "input" true false no_payload.

(** The companion page with its share form focused. *)
Definition form_focused : page := mkPage (Some PageSamples.share_form) [] 0 [] [].

End Sessions.

(* ================================================================== *)
(** * Properties *)

(** ** Code units and prefixes *)

Lemma CodeUnit_ext (a b : char16) : CodeUnit.val a = CodeUnit.val b -> a = b.
Proof.
  destruct a as [x Hx], b as [y Hy]; simpl; intros Heq; subst y.
  f_equal. apply Eqdep_dec.UIP_dec, Bool.bool_dec.
Qed.

Lemma CodeUnit_val_range (c : char16) : 0 <= CodeUnit.val c < 65536.
Proof.
  destruct c as [x Hx]; simpl. unfold CodeUnit.in_range in Hx.
  apply andb_prop in Hx as [Hlo Hhi].
  apply Z.leb_le in Hlo. apply Z.ltb_lt in Hhi. lia.
Qed.

Lemma CodeUnit_val_of_Z (z : Z) : 0 <= z < 65536 -> CodeUnit.val (CodeUnit.of_Z z) = z.
Proof. intros Hz; simpl. now apply Z.mod_small. Qed.

Lemma CodeUnit_of_Z_val (c : char16) : CodeUnit.of_Z (CodeUnit.val c) = c.
Proof. apply CodeUnit_ext, CodeUnit_val_of_Z, CodeUnit_val_range. Qed.

Lemma CodeUnit_eqb_eq (a b : char16) : CodeUnit.eqb a b = true <-> a = b.
Proof.
  unfold CodeUnit.eqb; split.
  - intros H. apply CodeUnit_ext. now apply Z.eqb_eq.
  - intros ->. apply Z.eqb_refl.
Qed.

(** [startsWith] is the literal, case-sensitive prefix test. *)
Lemma startsWith_spec (s search : jsstring) :
  startsWith s search = true <-> exists rest, s = search ++ rest.
Proof.
  revert s; induction search as [|c search IH]; intros s; simpl.
  - split; [intros _; now exists s | reflexivity].
  - destruct s as [|d s].
    + split; [discriminate | intros [rest Hrest]; discriminate].
    + rewrite andb_true_iff, CodeUnit_eqb_eq, IH. split.
      * intros [-> [rest ->]]. now exists rest.
      * intros [rest Hrest]. injection Hrest as -> ->. split; [reflexivity | now exists rest].
Qed.

Lemma not_shareable_spec (u : jsstring) :
  not_shareable u = true <->
  u = [] \/ (exists rest, u = js "chrome://" ++ rest)
         \/ (exists rest, u = js "chrome-extension://" ++ rest).
Proof.
  unfold not_shareable.
  rewrite !orb_true_iff, !startsWith_spec.
  destruct u as [|c u]; simpl; intuition (auto; discriminate).
Qed.

(** ** The worker's monad *)

Ltac unfold_worker :=
  unfold effects, outcome, run, handleShareAction, share_region, copyToClipboard,
    try_catch, bind, lift, ret,
    chrome_scripting_executeScript, chrome_tabs_query, chrome_tabs_update,
    chrome_windows_update, chrome_tabs_create,
    console_log, console_warn, console_error, emit in *.

Lemma copyToClipboard_run (P : Platform) (text : jsstring) (tabId : option Z) (tr : list event) :
  copyToClipboard text tabId P tr = (Normal tt, tr ++ clipboard_log P text tabId).
Proof.
  unfold clipboard_log. unfold_worker.
  destruct (executeScript_result P tabId (clipboard_writeText text)) as [[]|e];
    now rewrite <- app_assoc.
Qed.

(** A shareable tab: the clipboard writer runs, then the try region, whose
    exception, if any, goes to the top-level handler. *)
Lemma handleShareAction_shareable (tab : Tab) (P : Platform) (u : jsstring) :
  url tab = Some u -> not_shareable u = false ->
  run (handleShareAction tab) P =
    match share_region u P (clipboard_log P u (id tab)) with
    | (Normal a, tr) => (Normal a, tr)
    | (Throw e, tr) =>
        (Normal tt, tr ++ [Console error "Aegis Quick Share: Error during share action" (Some e)])
    end.
Proof.
  intros Hu Hs. unfold run, handleShareAction. rewrite Hu, Hs.
  unfold bind at 1. rewrite copyToClipboard_run. simpl app.
  unfold try_catch.
  destruct (share_region u P (clipboard_log P u (id tab))) as [[a|e] tr]; reflexivity.
Qed.

(** The try region only appends to the log, starting with the tab query. *)
Lemma share_region_log (u : jsstring) (P : Platform) (tr : list event) :
  exists more,
    snd (share_region u P tr) = tr ++ Call (tabs_query (APP_ORIGIN ++ js "/*")) :: more
    /\ clipboard_writes more = [] /\ tab_queries more = [].
Proof.
  unfold_worker.
  destruct (query_result P (APP_ORIGIN ++ js "/*")) as [[|aegisTab others]|e].
  - destruct (URI.encodeURIComponent u) as [enc|e].
    + destruct (create_result P _) as [[]|e]; simpl; rewrite <- ?app_assoc; simpl;
        eexists; (split; [reflexivity | split; reflexivity]).
    + simpl. eexists; (split; [reflexivity | split; reflexivity]).
  - destruct (tabs_update_result P _ _) as [[]|e1];
      [destruct (windows_update_result P _ _) as [[]|e2];
        [destruct (executeScript_result P _ _) as [[]|e3]|]|];
      simpl; rewrite <- ?app_assoc; simpl;
      eexists; (split; [reflexivity | split; reflexivity]).
  - simpl. eexists; (split; [reflexivity | split; reflexivity]).
Qed.

Lemma projections_app (tr1 tr2 : list event) :
  calls (tr1 ++ tr2) = calls tr1 ++ calls tr2
  /\ created_tabs (tr1 ++ tr2) = created_tabs tr1 ++ created_tabs tr2
  /\ dispatcher_injections (tr1 ++ tr2) = dispatcher_injections tr1 ++ dispatcher_injections tr2
  /\ clipboard_writes (tr1 ++ tr2) = clipboard_writes tr1 ++ clipboard_writes tr2
  /\ tab_queries (tr1 ++ tr2) = tab_queries tr1 ++ tab_queries tr2
  /\ focus_calls (tr1 ++ tr2) = focus_calls tr1 ++ focus_calls tr2.
Proof.
  unfold calls, created_tabs, dispatcher_injections, clipboard_writes, tab_queries, focus_calls.
  now rewrite !flat_map_app.
Qed.

Lemma clipboard_log_projections (P : Platform) (u : jsstring) (t : option Z) :
  clipboard_writes (clipboard_log P u t) = [(t, u)]
  /\ created_tabs (clipboard_log P u t) = []
  /\ dispatcher_injections (clipboard_log P u t) = []
  /\ tab_queries (clipboard_log P u t) = []
  /\ focus_calls (clipboard_log P u t) = [].
Proof.
  unfold clipboard_log.
  destruct (executeScript_result P t (clipboard_writeText u)); simpl; auto.
Qed.

(** The log of a shareable click: the clipboard writer's two entries, the
    tab query, and what follows it, which holds no other clipboard write and
    no other query. *)
Lemma effects_shareable (tab : Tab) (P : Platform) (u : jsstring) :
  url tab = Some u -> not_shareable u = false ->
  exists after,
    effects tab P
    = clipboard_log P u (id tab) ++ Call (tabs_query (APP_ORIGIN ++ js "/*")) :: after
    /\ clipboard_writes after = [] /\ tab_queries after = [].
Proof.
  intros Hu Hs. unfold effects. rewrite (handleShareAction_shareable tab P u Hu Hs).
  destruct (share_region_log u P (clipboard_log P u (id tab))) as (more & Hlog & Hcw & Htq).
  destruct (share_region u P (clipboard_log P u (id tab))) as [[[]|e] tr];
    cbn [snd] in Hlog |- *; subst tr.
  - exists more. auto.
  - exists (more ++ [Console error "Aegis Quick Share: Error during share action" (Some e)]).
    rewrite <- app_assoc. split; [reflexivity|].
    destruct (projections_app more
                [Console error "Aegis Quick Share: Error during share action" (Some e)])
      as (_ & _ & _ & -> & -> & _).
    rewrite Hcw, Htq. split; reflexivity.
Qed.

(** The try region, step by step: each awaited call is logged, and the first
    one that fails ends the region with its error. *)
Lemma share_region_run (u : jsstring) (P : Platform) (tr : list event) :
  share_region u P tr =
  let query := Call (tabs_query (APP_ORIGIN ++ js "/*")) in
  match query_result P (APP_ORIGIN ++ js "/*") with
  | Throw e => (Throw e, tr ++ [query])
  | Normal [] =>
      match URI.encodeURIComponent u with
      | Throw e => (Throw e, tr ++ [query])
      | Normal encoded =>
          let create := Call (tabs_create (DASHBOARD_URL ++ js "?share_url=" ++ encoded)) in
          match create_result P (DASHBOARD_URL ++ js "?share_url=" ++ encoded) with
          | Throw e => (Throw e, tr ++ [query; create])
          | Normal _ =>
              (Normal tt,
               tr ++ [query; create;
                      Console log "Aegis Quick Share: Opened new Aegis tab with share URL" None])
          end
      end
  | Normal (aegisTab :: _) =>
      let activate := Call (tabs_update (id aegisTab) true) in
      let focus := Call (windows_update (windowId aegisTab) true) in
      let inject :=
        Call (scripting_executeScript (id aegisTab) (dispatchShareIntent_in_page u)) in
      match tabs_update_result P (id aegisTab) true with
      | Throw e => (Throw e, tr ++ [query; activate])
      | Normal _ =>
          match windows_update_result P (windowId aegisTab) true with
          | Throw e => (Throw e, tr ++ [query; activate; focus])
          | Normal _ =>
              match executeScript_result P (id aegisTab) (dispatchShareIntent_in_page u) with
              | Throw e => (Throw e, tr ++ [query; activate; focus; inject])
              | Normal _ =>
                  (Normal tt,
                   tr ++ [query; activate; focus; inject;
                          Console log "Aegis Quick Share: Dispatched share intent to existing tab"
                            None])
              end
          end
      end
  end.
Proof.
  unfold_worker. cbv zeta.
  destruct (query_result P (APP_ORIGIN ++ js "/*")) as [[|aegisTab others]|e]; [| |reflexivity].
  - destruct (URI.encodeURIComponent u) as [enc|e]; [|reflexivity].
    destruct (create_result P _) as [[]|e]; rewrite <- ?app_assoc; reflexivity.
  - destruct (tabs_update_result P _ _) as [[]|e1];
      [destruct (windows_update_result P _ _) as [[]|e2];
        [destruct (executeScript_result P _ _) as [[]|e3]|]|];
      rewrite <- ?app_assoc; reflexivity.
Qed.

Lemma outcome_normal (tab : Tab) (P : Platform) : outcome tab P = Normal tt.
Proof.
  unfold outcome.
  destruct (url tab) as [u|] eqn:Hu.
  - destruct (not_shareable u) eqn:Hs.
    + unfold run, handleShareAction. now rewrite Hu, Hs.
    + rewrite (handleShareAction_shareable tab P u Hu Hs).
      destruct (share_region u P (clipboard_log P u (id tab))) as [[[]|e] tr]; reflexivity.
  - unfold run, handleShareAction. now rewrite Hu.
Qed.

Lemma effects_of_region (tab : Tab) (P : Platform) (u : jsstring) :
  url tab = Some u -> not_shareable u = false ->
  effects tab P =
    match share_region u P (clipboard_log P u (id tab)) with
    | (Normal _, tr) => tr
    | (Throw e, tr) =>
        tr ++ [Console error "Aegis Quick Share: Error during share action" (Some e)]
    end.
Proof.
  intros Hu Hs. unfold effects. rewrite (handleShareAction_shareable tab P u Hu Hs).
  destruct (share_region u P (clipboard_log P u (id tab))) as [[[]|e] tr]; reflexivity.
Qed.

(** Projections of a log that starts with the clipboard writer's entries. *)
Lemma projections_after_clipboard (P : Platform) (u : jsstring) (t : option Z) (l : list event) :
  created_tabs (clipboard_log P u t ++ l) = created_tabs l
  /\ dispatcher_injections (clipboard_log P u t ++ l) = dispatcher_injections l
  /\ tab_queries (clipboard_log P u t ++ l) = tab_queries l
  /\ focus_calls (clipboard_log P u t ++ l) = focus_calls l.
Proof.
  destruct (projections_app (clipboard_log P u t) l) as (_ & -> & -> & _ & -> & ->).
  destruct (clipboard_log_projections P u t) as (_ & -> & -> & -> & ->).
  repeat split.
Qed.

(* ================================================================== *)
(** ** Percent-encoding *)

Module URIFacts.
Import URI.

Ltac Zify.zify_post_hook ::= Z.div_mod_to_equations.

(** Case analysis on the integer comparisons of the goal, dropping the
    impossible cases as they appear. *)
Ltac compare_cases :=
  repeat (match goal with
          | |- context [?a <=? ?b] => destruct (Z.leb_spec a b)
          | |- context [?a <? ?b] => destruct (Z.ltb_spec a b)
          | |- context [?a =? ?b] => destruct (Z.eqb_spec a b)
          end; try (exfalso; lia)).

Lemma hex_digit_val (d : Z) :
  0 <= d < 16 -> CodeUnit.val (hex_digit d) = if d <? 10 then 48 + d else 55 + d.
Proof.
  intros Hd. unfold hex_digit. apply CodeUnit_val_of_Z. destruct (d <? 10); lia.
Qed.

Lemma ParseHexDigit_hex_digit (d : Z) :
  0 <= d < 16 -> ParseHexDigit (CodeUnit.val (hex_digit d)) = Some d.
Proof.
  intros Hd. rewrite (hex_digit_val d Hd). unfold ParseHexDigit.
  destruct (Z.ltb_spec d 10); compare_cases; cbn [andb orb negb]; f_equal; lia.
Qed.

Lemma hex_digit_unescaped (d : Z) :
  0 <= d < 16 -> uriUnescaped (CodeUnit.val (hex_digit d)) = true.
Proof.
  intros Hd. rewrite (hex_digit_val d Hd). unfold uriUnescaped, is_alpha, is_digit.
  destruct (Z.ltb_spec d 10).
  - replace ((48 <=? 48 + d) && (48 + d <=? 57)) with true; [now rewrite orb_true_r|].
    symmetry. apply andb_true_intro; split; apply Z.leb_le; lia.
  - replace ((65 <=? 55 + d) && (55 + d <=? 90)) with true; [reflexivity|].
    symmetry. apply andb_true_intro; split; apply Z.leb_le; lia.
Qed.

Lemma ParseHexOctet_escape (b : Z) :
  octet b -> ParseHexOctet (hex_digit (b / 16)) (hex_digit (b mod 16)) = Some b.
Proof.
  unfold octet; intros Hb. unfold ParseHexOctet.
  rewrite !ParseHexDigit_hex_digit by lia. f_equal. lia.
Qed.

Lemma percent_val : CodeUnit.val percent = 37.
Proof. reflexivity. Qed.

Lemma read_continuation_escape (bs : list Z) (rest : jsstring) :
  Forall octet bs ->
  read_continuation (List.length bs) (escape_octets bs ++ rest) = Normal (bs, rest).
Proof.
  induction 1 as [|b bs Hb Hbs IH]; [reflexivity|].
  cbn [List.length escape_octets flat_map escape_octet app read_continuation].
  rewrite percent_val, Z.eqb_refl, (ParseHexOctet_escape b Hb).
  fold (escape_octets bs). now rewrite IH.
Qed.

(** Unescaped code units pass through Decode. *)
Lemma unescaped_not_percent (c : Z) : uriUnescaped c = true -> (c =? 37) = false.
Proof.
  intros H. destruct (Z.eqb_spec c 37) as [->|]; [discriminate H | reflexivity].
Qed.

Lemma Decode_loop_unescaped (f : nat) (C : char16) (rest : jsstring) :
  uriUnescaped (CodeUnit.val C) = true ->
  Decode_loop (S f) (C :: rest) =
  match Decode_loop f rest with
  | Normal R => Normal (C :: R)
  | Throw e => Throw e
  end.
Proof.
  intros H. cbn [Decode_loop]. now rewrite (unescaped_not_percent _ H).
Qed.

(** One escaped octet below 0x80 decodes to that code unit. *)
Lemma Decode_loop_ascii (f : nat) (B : Z) (rest : jsstring) :
  0 <= B < 128 ->
  Decode_loop (S f) (escape_octets [B] ++ rest) =
  match Decode_loop f rest with
  | Normal R => Normal (CodeUnit.of_Z B :: R)
  | Throw e => Throw e
  end.
Proof.
  intros HB.
  cbn [escape_octets flat_map escape_octet app Decode_loop].
  rewrite percent_val, Z.eqb_refl, ParseHexOctet_escape by (unfold octet; lia).
  unfold leading_ones. destruct (Z.ltb_spec B 128); [reflexivity | lia].
Qed.

(** An escaped multi-octet sequence decodes to the UTF-16 form of its code
    point. *)
Lemma Decode_loop_sequence (f : nat) (B : Z) (bs : list Z) (V : Z) (rest : jsstring) :
  octet B -> Forall octet bs ->
  (1 <= List.length bs <= 3)%nat ->
  leading_ones B = S (List.length bs) ->
  utf8_decode (B :: bs) = Some V ->
  Decode_loop (S f) (escape_octets (B :: bs) ++ rest) =
  match Decode_loop f rest with
  | Normal R => Normal (UTF16EncodeCodePoint V ++ R)
  | Throw e => Throw e
  end.
Proof.
  intros HB Hbs Hlen Hlead Hdec.
  cbn [escape_octets flat_map escape_octet app Decode_loop].
  fold (escape_octets bs).
  rewrite percent_val, Z.eqb_refl, (ParseHexOctet_escape B HB), Hlead.
  destruct (List.length bs) as [|[|[|[|n]]]] eqn:Hn; try lia;
    rewrite <- Hn, (read_continuation_escape bs rest Hbs), Hdec; reflexivity.
Qed.

(** The UTF-8 form of a code point outside ASCII: its shape, and that it
    decodes to the code point. *)
Lemma utf8_encode_decode (cp : Z) :
  128 <= cp < 1114112 -> ~ (55296 <= cp <= 57343) ->
  exists B bs,
    utf8_encode cp = B :: bs
    /\ octet B /\ Forall octet bs
    /\ (1 <= List.length bs <= 3)%nat
    /\ leading_ones B = S (List.length bs)
    /\ utf8_decode (B :: bs) = Some cp.
Proof.
  intros Hcp Hsur. unfold utf8_encode, octet.
  destruct (Z.ltb_spec cp 128); [lia|].
  destruct (Z.ltb_spec cp 2048); [|destruct (Z.ltb_spec cp 65536)].
  - eexists _, _. split; [reflexivity|].
    split; [lia|]. split; [repeat constructor; lia|]. split; [simpl; lia|].
    split.
    + unfold leading_ones. compare_cases. reflexivity.
    + unfold utf8_decode, is_cont. compare_cases; cbn [andb orb negb]; f_equal; lia.
  - eexists _, _. split; [reflexivity|].
    split; [lia|]. split; [repeat constructor; lia|]. split; [simpl; lia|].
    split.
    + unfold leading_ones. compare_cases. reflexivity.
    + unfold utf8_decode, is_cont. compare_cases; cbn [andb orb negb]; f_equal; lia.
  - eexists _, _. split; [reflexivity|].
    split; [lia|]. split; [repeat constructor; lia|]. split; [simpl; lia|].
    split.
    + unfold leading_ones. compare_cases. reflexivity.
    + unfold utf8_decode, is_cont. compare_cases; cbn [andb orb negb]; f_equal; lia.
Qed.

Lemma utf8_encode_ascii (cp : Z) : 0 <= cp < 128 -> utf8_encode cp = [cp].
Proof. intros H. unfold utf8_encode. destruct (Z.ltb_spec cp 128); [reflexivity | lia]. Qed.

Lemma utf8_encode_octets (cp : Z) : 0 <= cp < 1114112 -> Forall octet (utf8_encode cp).
Proof.
  intros Hcp. unfold utf8_encode, octet.
  destruct (Z.ltb_spec cp 128); [|destruct (Z.ltb_spec cp 2048); [|destruct (Z.ltb_spec cp 65536)]];
    repeat constructor; lia.
Qed.

Lemma is_lead_spec (c : Z) : is_lead c = true <-> 55296 <= c <= 56319.
Proof. unfold is_lead. rewrite andb_true_iff, !Z.leb_le. tauto. Qed.

Lemma is_trail_spec (c : Z) : is_trail c = true <-> 56320 <= c <= 57343.
Proof. unfold is_trail. rewrite andb_true_iff, !Z.leb_le. tauto. Qed.

Lemma not_surrogate (c : Z) :
  is_trail c = false -> is_lead c = false -> ~ (55296 <= c <= 57343).
Proof.
  intros Ht Hl H.
  destruct (Z.le_gt_cases c 56319).
  - assert (is_lead c = true) by (apply is_lead_spec; lia). congruence.
  - assert (is_trail c = true) by (apply is_trail_spec; lia). congruence.
Qed.

Lemma pair_to_code_point_range (c d : Z) :
  is_lead c = true -> is_trail d = true ->
  65536 <= pair_to_code_point c d < 1114112.
Proof.
  rewrite is_lead_spec, is_trail_spec. unfold pair_to_code_point. lia.
Qed.

Lemma UTF16EncodeCodePoint_unit (C : char16) :
  UTF16EncodeCodePoint (CodeUnit.val C) = [C].
Proof.
  pose proof (CodeUnit_val_range C). unfold UTF16EncodeCodePoint.
  destruct (Z.leb_spec (CodeUnit.val C) 65535); [|lia].
  now rewrite CodeUnit_of_Z_val.
Qed.

Lemma UTF16EncodeCodePoint_pair (C D : char16) :
  is_lead (CodeUnit.val C) = true -> is_trail (CodeUnit.val D) = true ->
  UTF16EncodeCodePoint (pair_to_code_point (CodeUnit.val C) (CodeUnit.val D)) = [C; D].
Proof.
  intros HC HD.
  pose proof (pair_to_code_point_range _ _ HC HD) as Hr.
  apply is_lead_spec in HC. apply is_trail_spec in HD.
  unfold UTF16EncodeCodePoint.
  destruct (Z.leb_spec (pair_to_code_point (CodeUnit.val C) (CodeUnit.val D)) 65535); [lia|].
  unfold pair_to_code_point in *.
  pose proof (CodeUnit_val_range C). pose proof (CodeUnit_val_range D).
  match goal with
  | |- [CodeUnit.of_Z ?x; CodeUnit.of_Z ?y] = _ =>
      assert (Hx : CodeUnit.of_Z x = C) by (apply CodeUnit_ext; rewrite CodeUnit_val_of_Z; lia);
      assert (Hy : CodeUnit.of_Z y = D) by (apply CodeUnit_ext; rewrite CodeUnit_val_of_Z; lia)
  end.
  now rewrite Hx, Hy.
Qed.

Lemma escape_octets_length (bs : list Z) :
  List.length (escape_octets bs) = (3 * List.length bs)%nat.
Proof.
  unfold escape_octets.
  induction bs as [|b bs IH]; [reflexivity|].
  cbn [flat_map escape_octet app List.length]. lia.
Qed.

(** The step of Encode on an escaped code point, and what Decode makes of
    it: [units] is the one or two code units that were encoded. *)
Lemma Decode_loop_escaped (f : nat) (cp : Z) (units : jsstring) (R s : jsstring) :
  0 <= cp < 1114112 -> ~ (55296 <= cp <= 57343) ->
  UTF16EncodeCodePoint cp = units ->
  (forall f', (List.length R <= f')%nat -> Decode_loop f' R = Normal s) ->
  (List.length (escape_octets (utf8_encode cp) ++ R) <= f)%nat ->
  Decode_loop f (escape_octets (utf8_encode cp) ++ R) = Normal (units ++ s).
Proof.
  intros Hcp Hsur Hunits IH Hf.
  rewrite length_app, escape_octets_length in Hf.
  destruct (Z.lt_ge_cases cp 128) as [Hlow|Hhigh].
  - rewrite utf8_encode_ascii in * by lia. cbn [List.length] in Hf.
    destruct f as [|f]; [lia|].
    rewrite Decode_loop_ascii, IH by lia.
    subst units. unfold UTF16EncodeCodePoint.
    destruct (Z.leb_spec cp 65535); [reflexivity | lia].
  - destruct (utf8_encode_decode cp) as (B & bs & Henc & HB & Hbs & Hlen & Hlead & Hdec);
      [lia | exact Hsur |].
    rewrite Henc in Hf |- *.
    cbn [List.length] in Hf. destruct f as [|f]; [lia|].
    rewrite (Decode_loop_sequence f B bs cp R HB Hbs Hlen Hlead Hdec), IH by lia.
    now subst units.
Qed.

(** Decoding what Encode produced gives the string back. *)
Lemma Encode_Decode_loop (n : nat) :
  forall s e, (List.length s <= n)%nat -> Encode s = Normal e ->
  forall f, (List.length e <= f)%nat -> Decode_loop f e = Normal s.
Proof.
  induction n as [|n IH]; intros s e Hn Henc f Hf.
  - destruct s; [|cbn [List.length] in Hn; lia].
    cbn [Encode] in Henc. injection Henc as <-. now destruct f.
  - destruct s as [|C rest].
    { cbn [Encode] in Henc. injection Henc as <-. now destruct f. }
    cbn [List.length] in Hn. cbn [Encode] in Henc. cbv zeta in Henc.
    destruct (uriUnescaped (CodeUnit.val C)) eqn:Hun.
    { destruct (Encode rest) as [R|] eqn:HR; [|discriminate]. injection Henc as <-.
      cbn [List.length] in Hf. destruct f as [|f]; [lia|].
      rewrite (Decode_loop_unescaped f C R Hun), (IH rest R) by (lia || assumption).
      reflexivity. }
    destruct (is_trail (CodeUnit.val C)) eqn:Htrail; [discriminate|].
    destruct (is_lead (CodeUnit.val C)) eqn:Hlead.
    + destruct rest as [|D rest']; [discriminate|].
      destruct (is_trail (CodeUnit.val D)) eqn:HD; [|discriminate].
      destruct (Encode rest') as [R|] eqn:HR; [|discriminate]. injection Henc as <-.
      cbn [List.length] in Hn.
      pose proof (pair_to_code_point_range _ _ Hlead HD) as Hr.
      change (C :: D :: rest') with ([C; D] ++ rest').
      apply Decode_loop_escaped; [lia | lia | | | exact Hf].
      * now apply UTF16EncodeCodePoint_pair.
      * intros f' Hf'. apply (IH rest' R); (lia || assumption).
    + destruct (Encode rest) as [R|] eqn:HR; [|discriminate]. injection Henc as <-.
      pose proof (CodeUnit_val_range C) as Hr.
      change (C :: rest) with ([C] ++ rest).
      apply Decode_loop_escaped; [lia | | | | exact Hf].
      * now apply not_surrogate.
      * apply UTF16EncodeCodePoint_unit.
      * intros f' Hf'. apply (IH rest R); (lia || assumption).
Qed.

(** The round trip of percent-encoding. *)
Lemma decode_encode (s e : jsstring) :
  encodeURIComponent s = Normal e -> decodeURIComponent e = Normal s.
Proof.
  intros H. unfold decodeURIComponent.
  now apply (Encode_Decode_loop (List.length s) s e).
Qed.

(** Encode throws exactly on the strings that are not well formed. *)
Lemma Encode_isWellFormed (n : nat) :
  forall s, (List.length s <= n)%nat ->
  (isWellFormed s = true -> exists e, Encode s = Normal e)
  /\ (isWellFormed s = false -> Encode s = Throw URIError).
Proof.
  induction n as [|n IH]; intros s Hn.
  - destruct s; [|cbn [List.length] in Hn; lia].
    split; [now exists [] | discriminate].
  - destruct s as [|C rest]; [split; [now exists [] | discriminate]|].
    cbn [List.length] in Hn. cbn [Encode isWellFormed]. cbv zeta.
    destruct (uriUnescaped (CodeUnit.val C)) eqn:Hun.
    { assert (Hplain : is_trail (CodeUnit.val C) = false /\ is_lead (CodeUnit.val C) = false).
      { revert Hun. unfold uriUnescaped, is_alpha, is_digit, is_mark, is_trail, is_lead.
        compare_cases; cbn [andb orb]; intros; (discriminate || auto). }
      destruct Hplain as [-> ->].
      destruct (IH rest ltac:(lia)) as [Hok Hbad].
      split; intros Hwf.
      - destruct (Hok Hwf) as [e ->]. eauto.
      - now rewrite (Hbad Hwf). }
    destruct (is_trail (CodeUnit.val C)) eqn:Htrail; [split; [discriminate | reflexivity]|].
    destruct (is_lead (CodeUnit.val C)) eqn:Hlead.
    + destruct rest as [|D rest']; [split; [discriminate | reflexivity]|].
      cbn [List.length] in Hn.
      destruct (is_trail (CodeUnit.val D)) eqn:HD; cbn [andb];
        [|split; [discriminate | reflexivity]].
      destruct (IH rest' ltac:(lia)) as [Hok Hbad].
      split; intros Hwf.
      * destruct (Hok Hwf) as [e ->]. eauto.
      * now rewrite (Hbad Hwf).
    + destruct (IH rest ltac:(lia)) as [Hok Hbad].
      split; intros Hwf.
      * destruct (Hok Hwf) as [e ->]. eauto.
      * now rewrite (Hbad Hwf).
Qed.

Lemma encode_well_formed (s : jsstring) :
  isWellFormed s = true -> exists e, encodeURIComponent s = Normal e.
Proof. intros H. now apply (Encode_isWellFormed (List.length s) s). Qed.

Lemma encode_ill_formed (s : jsstring) :
  isWellFormed s = false -> encodeURIComponent s = Throw URIError.
Proof. intros H. now apply (Encode_isWellFormed (List.length s) s). Qed.

End URIFacts.
Example encode_example :
  URI.encodeURIComponent (js "https://example.com/a?x=1&y=2")
  = Normal (js "https%3A%2F%2Fexample.com%2Fa%3Fx%3D1%26y%3D2").
Proof. vm_compute. reflexivity. Qed.

Example decode_example :
  URI.decodeURIComponent (js "https%3A%2F%2Fexample.com%2Fa%3Fx%3D1%26y%3D2")
  = Normal (js "https://example.com/a?x=1&y=2").
Proof. vm_compute. reflexivity. Qed.

(** U+1F600 as a surrogate pair, and a lone lead surrogate. *)
Example encode_pair :
  URI.encodeURIComponent [CodeUnit.of_Z 55357; CodeUnit.of_Z 56832] = Normal (js "%F0%9F%98%80").
Proof. vm_compute. reflexivity. Qed.

Example decode_pair :
  URI.decodeURIComponent (js "%F0%9F%98%80") = Normal [CodeUnit.of_Z 55357; CodeUnit.of_Z 56832].
Proof. vm_compute. reflexivity. Qed.

Example encode_lone : URI.encodeURIComponent [CodeUnit.of_Z 55296] = Throw URIError.
Proof. vm_compute. reflexivity. Qed.

(* ================================================================== *)
(** ** Reading the parameter back *)

Module QueryFacts.
Import Query.

Lemma avoids_forallb (sep : Z) (s : jsstring) :
  forallb (fun c => negb (CodeUnit.val c =? sep)) s = true -> avoids sep s.
Proof.
  unfold avoids. rewrite forallb_forall, Forall_forall.
  intros H c Hc Heq. specialize (H c Hc). rewrite Heq, Z.eqb_refl in H. discriminate.
Qed.

Lemma take_until_avoids (sep : Z) (s : jsstring) : avoids sep s -> take_until sep s = s.
Proof.
  induction 1 as [|c s Hc Hs IH]; [reflexivity|].
  cbn [take_until]. destruct (Z.eqb_spec (CodeUnit.val c) sep); [contradiction|].
  now rewrite IH.
Qed.

Lemma split_on_avoids (sep : Z) (s : jsstring) : avoids sep s -> split_on sep s = [s].
Proof.
  induction 1 as [|c s Hc Hs IH]; [reflexivity|].
  cbn [split_on]. destruct (Z.eqb_spec (CodeUnit.val c) sep); [contradiction|].
  now rewrite IH.
Qed.

(** What Encode produces holds only unescaped characters and '%'. *)
Lemma escape_octets_chars (bs : list Z) :
  Forall octet bs ->
  Forall (fun c => URI.uriUnescaped (CodeUnit.val c) = true \/ CodeUnit.val c = 37)
         (URI.escape_octets bs).
Proof.
  induction 1 as [|b bs Hb Hbs IH]; [constructor|].
  unfold octet in Hb.
  cbn [URI.escape_octets flat_map URI.escape_octet app].
  constructor; [now right|].
  constructor; [left; apply URIFacts.hex_digit_unescaped; lia|].
  constructor; [left; apply URIFacts.hex_digit_unescaped; lia|].
  exact IH.
Qed.

Lemma Encode_chars (n : nat) :
  forall s e, (List.length s <= n)%nat -> URI.Encode s = Normal e ->
  Forall (fun c => URI.uriUnescaped (CodeUnit.val c) = true \/ CodeUnit.val c = 37) e.
Proof.
  induction n as [|n IH]; intros s e Hn Henc.
  - destruct s; [|cbn [List.length] in Hn; lia].
    cbn [URI.Encode] in Henc. injection Henc as <-. constructor.
  - destruct s as [|C rest].
    { cbn [URI.Encode] in Henc. injection Henc as <-. constructor. }
    cbn [List.length] in Hn. cbn [URI.Encode] in Henc. cbv zeta in Henc.
    destruct (URI.uriUnescaped (CodeUnit.val C)) eqn:Hun.
    { destruct (URI.Encode rest) as [R|] eqn:HR; [|discriminate]. injection Henc as <-.
      constructor; [now left|]. apply (IH rest R); (lia || assumption). }
    destruct (URI.is_trail (CodeUnit.val C)) eqn:Htrail; [discriminate|].
    destruct (URI.is_lead (CodeUnit.val C)) eqn:Hlead.
    + destruct rest as [|D rest']; [discriminate|].
      destruct (URI.is_trail (CodeUnit.val D)) eqn:HD; [|discriminate].
      destruct (URI.Encode rest') as [R|] eqn:HR; [|discriminate]. injection Henc as <-.
      cbn [List.length] in Hn.
      pose proof (URIFacts.pair_to_code_point_range _ _ Hlead HD) as Hr.
      apply Forall_app; split.
      * apply escape_octets_chars, URIFacts.utf8_encode_octets. lia.
      * apply (IH rest' R); (lia || assumption).
    + destruct (URI.Encode rest) as [R|] eqn:HR; [|discriminate]. injection Henc as <-.
      pose proof (CodeUnit_val_range C) as Hr.
      apply Forall_app; split.
      * apply escape_octets_chars, URIFacts.utf8_encode_octets. lia.
      * apply (IH rest R); (lia || assumption).
Qed.

Lemma encoded_avoids (s e : jsstring) (sep : Z) :
  URI.encodeURIComponent s = Normal e ->
  URI.uriUnescaped sep = false -> sep <> 37 -> avoids sep e.
Proof.
  intros Henc Hsep H37. unfold avoids.
  eapply Forall_impl; [|exact (Encode_chars (List.length s) s e (Nat.le_refl _) Henc)].
  intros c [Hc|Hc] Heq; [rewrite Heq in Hc; congruence | congruence].
Qed.

(** The address the worker builds carries the encoded text as the value of
    its [share_url] parameter. *)
Lemma param_share_url (e : jsstring) :
  avoids 35 e -> avoids 38 e ->
  param (js "share_url") (DASHBOARD_URL ++ js "?share_url=" ++ e) = Some e.
Proof.
  intros Hhash Hamp. unfold param, search.
  rewrite take_until_avoids.
  - change (drop_through 63 (DASHBOARD_URL ++ js "?share_url=" ++ e))
      with (Some (js "share_url=" ++ e)).
    cbv beta iota.
    rewrite split_on_avoids.
    + reflexivity.
    + apply Forall_app; split; [apply avoids_forallb; reflexivity | exact Hamp].
  - rewrite app_assoc. apply Forall_app; split; [apply avoids_forallb; reflexivity | exact Hhash].
Qed.

End QueryFacts.

(* ================================================================== *)
(** ** The log of a shareable click, by the answers of the platform *)

Lemma effects_by_outcome (tab : Tab) (P : Platform) (u : jsstring) :
  url tab = Some u -> not_shareable u = false ->
  effects tab P =
  clipboard_log P u (id tab) ++
  let query := Call (tabs_query (APP_ORIGIN ++ js "/*")) in
  let failed e := Console error "Aegis Quick Share: Error during share action" (Some e) in
  match query_result P (APP_ORIGIN ++ js "/*") with
  | Throw e => [query; failed e]
  | Normal [] =>
      match URI.encodeURIComponent u with
      | Throw e => [query; failed e]
      | Normal encoded =>
          let create := Call (tabs_create (DASHBOARD_URL ++ js "?share_url=" ++ encoded)) in
          match create_result P (DASHBOARD_URL ++ js "?share_url=" ++ encoded) with
          | Throw e => [query; create; failed e]
          | Normal _ =>
              [query; create;
               Console log "Aegis Quick Share: Opened new Aegis tab with share URL" None]
          end
      end
  | Normal (aegisTab :: _) =>
      let activate := Call (tabs_update (id aegisTab) true) in
      let focus := Call (windows_update (windowId aegisTab) true) in
      let inject :=
        Call (scripting_executeScript (id aegisTab) (dispatchShareIntent_in_page u)) in
      match tabs_update_result P (id aegisTab) true with
      | Throw e => [query; activate; failed e]
      | Normal _ =>
          match windows_update_result P (windowId aegisTab) true with
          | Throw e => [query; activate; focus; failed e]
          | Normal _ =>
              match executeScript_result P (id aegisTab) (dispatchShareIntent_in_page u) with
              | Throw e => [query; activate; focus; inject; failed e]
              | Normal _ =>
                  [query; activate; focus; inject;
                   Console log "Aegis Quick Share: Dispatched share intent to existing tab" None]
              end
          end
      end
  end.
Proof.
  intros Hu Hs. rewrite (effects_of_region tab P u Hu Hs), share_region_run. cbv zeta.
  destruct (query_result P (APP_ORIGIN ++ js "/*")) as [[|aegisTab others]|e].
  - destruct (URI.encodeURIComponent u) as [enc|e];
      [destruct (create_result P _) as [[]|e]|]; rewrite <- ?app_assoc; reflexivity.
  - destruct (tabs_update_result P _ _) as [[]|e1];
      [destruct (windows_update_result P _ _) as [[]|e2];
        [destruct (executeScript_result P (id aegisTab) _) as [[]|e3]|]|];
      rewrite <- ?app_assoc; reflexivity.
  - rewrite <- app_assoc. reflexivity.
Qed.

Lemma effects_internal (tab : Tab) (P : Platform) :
  url tab = None \/ (exists u, url tab = Some u /\ not_shareable u = true) ->
  effects tab P = [Console warn "Aegis Quick Share: Cannot share this page type" None].
Proof.
  intros [H|(u & Hu & Hs)]; unfold effects, run, handleShareAction.
  - now rewrite H.
  - now rewrite Hu, Hs.
Qed.

(** Every tab is either not shared or shareable. *)
Lemma tab_cases (tab : Tab) :
  (url tab = None \/ (exists u, url tab = Some u /\ not_shareable u = true))
  \/ (exists u, url tab = Some u /\ not_shareable u = false).
Proof.
  destruct (url tab) as [u|]; [|now left; left].
  destruct (not_shareable u) eqn:Hs; [left; right | right]; eauto.
Qed.

Lemma calls_after_clipboard (P : Platform) (u : jsstring) (t : option Z) (l : list event) :
  calls (clipboard_log P u t ++ l)
  = scripting_executeScript t (clipboard_writeText u) :: calls l.
Proof.
  destruct (projections_app (clipboard_log P u t) l) as (-> & _).
  unfold clipboard_log. destruct (executeScript_result P t (clipboard_writeText u)); reflexivity.
Qed.

(** Case analysis on every answer the platform gives to a shareable click. *)
Ltac by_outcome P u :=
  destruct (query_result P (APP_ORIGIN ++ js "/*")) as [[|?aegisTab ?others]|?e] eqn:?Hquery;
  [ destruct (URI.encodeURIComponent u) as [?encoded|?e] eqn:?Hencode;
    [ destruct (create_result P (DASHBOARD_URL ++ js "?share_url=" ++ encoded))
        as [[]|?e] eqn:?Hcreate | ]
  | destruct (tabs_update_result P (id aegisTab) true) as [[]|?e] eqn:?Hactivate;
    [ destruct (windows_update_result P (windowId aegisTab) true) as [[]|?e] eqn:?Hfocus;
      [ destruct (executeScript_result P (id aegisTab) (dispatchShareIntent_in_page u))
          as [[]|?e] eqn:?Hinject | ] | ]
  | ].

Ltac project_log :=
  repeat match goal with
    | |- context [created_tabs (clipboard_log ?p ?a ?t ++ ?l)] =>
        rewrite (proj1 (projections_after_clipboard p a t l))
    | |- context [dispatcher_injections (clipboard_log ?p ?a ?t ++ ?l)] =>
        rewrite (proj1 (proj2 (projections_after_clipboard p a t l)))
    | |- context [tab_queries (clipboard_log ?p ?a ?t ++ ?l)] =>
        rewrite (proj1 (proj2 (proj2 (projections_after_clipboard p a t l))))
    | |- context [focus_calls (clipboard_log ?p ?a ?t ++ ?l)] =>
        rewrite (proj2 (proj2 (proj2 (projections_after_clipboard p a t l))))
    | |- context [calls (clipboard_log ?p ?a ?t ++ ?l)] =>
        rewrite (calls_after_clipboard p a t l)
    end;
  cbn [created_tabs dispatcher_injections tab_queries focus_calls calls flat_map app].

Lemma encode_normal_iff (u : jsstring) :
  (exists encoded, URI.encodeURIComponent u = Normal encoded) <-> URI.isWellFormed u = true.
Proof.
  split.
  - intros [encoded H]. destruct (URI.isWellFormed u) eqn:Hwf; [reflexivity|].
    rewrite (URIFacts.encode_ill_formed u Hwf) in H. discriminate.
  - apply URIFacts.encode_well_formed.
Qed.

(* ================================================================== *)
(** ** The orchestrator: rejected pages *)

(** C3. A tab whose address is absent (or empty) or begins with the
    internal-browser scheme [chrome://] or the extension-internal scheme
    [chrome-extension://] makes [handleShareAction] a no-op apart from one
    logged warning: the log holds no call at all, so no clipboard write, no
    tab query, no focus, no injection and no tab creation. *)
Theorem rejected_page_only_warns (tab : Tab) (P : Platform) :
  internal_page tab ->
  run (handleShareAction tab) P
    = (Normal tt, [Console warn "Aegis Quick Share: Cannot share this page type" None])
  /\ calls (effects tab P) = []
  /\ clipboard_writes (effects tab P) = []
  /\ tab_queries (effects tab P) = []
  /\ focus_calls (effects tab P) = []
  /\ dispatcher_injections (effects tab P) = []
  /\ created_tabs (effects tab P) = [].
Proof.
  intros H.
  assert (Hrun : run (handleShareAction tab) P
                 = (Normal tt, [Console warn "Aegis Quick Share: Cannot share this page type" None])).
  { unfold run, handleShareAction.
    destruct H as [H|[H|[[rest H]|[rest H]]]]; rewrite H; reflexivity. }
  unfold effects. rewrite Hrun. simpl. repeat split; reflexivity.
Qed.

(** The extensions page of the browser. *)
Lemma rejected_page_only_warns_witness :
  run (handleShareAction Samples.extensions_page) Samples.companion_open
    = (Normal tt, [Console warn "Aegis Quick Share: Cannot share this page type" None])
  /\ calls (effects Samples.extensions_page Samples.companion_open) = [].
Proof.
  destruct (rejected_page_only_warns Samples.extensions_page Samples.companion_open) as (H1 & H2 & _).
  - right; right; left. exists (js "extensions/"). reflexivity.
  - split; [exact H1 | exact H2].
Defined.

(* ================================================================== *)
(** ** The orchestrator: the clipboard write *)



(* ================================================================== *)
(** ** The orchestrator: which pages are shareable *)

Lemma internal_page_not_shareable (tab : Tab) :
  internal_page tab <-> url tab = None \/ exists u, url tab = Some u /\ not_shareable u = true.
Proof.
  unfold internal_page. split.
  - intros [H|[H|[[rest H]|[rest H]]]]; [now left| right ..];
      eexists; (split; [exact H|]); apply not_shareable_spec; eauto.
  - intros [H|(u & Hu & Hs)]; [now left|].
    apply not_shareable_spec in Hs. rewrite Hu.
    destruct Hs as [->|[[rest ->]|[rest ->]]]; eauto.
Qed.

(** C9. The check rejects exactly the absent or empty address and the
    addresses that begin with the literal, case-sensitive [chrome://] or
    [chrome-extension://]: for those the log is the single warning. Every
    other address goes through the whole flow: the clipboard write, the tab
    query, and then, by the platform's answers, the activation, focus and
    dispatcher injection on the first companion tab, or the creation of the
    tab at the share address, each failure ending the flow with the error
    line. So do [about:blank], [file:///...], [edge://...] and [Chrome://...]
    with a capital. *)
Theorem shareable_exactly (tab : Tab) (P : Platform) :
  (internal_page tab <->
     effects tab P = [Console warn "Aegis Quick Share: Cannot share this page type" None])
  /\ (~ internal_page tab <->
        exists u,
          url tab = Some u
          /\ effects tab P =
             clipboard_log P u (id tab) ++
             let query := Call (tabs_query (APP_ORIGIN ++ js "/*")) in
             let failed e :=
               Console error "Aegis Quick Share: Error during share action" (Some e) in
             match query_result P (APP_ORIGIN ++ js "/*") with
             | Throw e => [query; failed e]
             | Normal [] =>
                 match URI.encodeURIComponent u with
                 | Throw e => [query; failed e]
                 | Normal encoded =>
                     let create :=
                       Call (tabs_create (DASHBOARD_URL ++ js "?share_url=" ++ encoded)) in
                     match create_result P (DASHBOARD_URL ++ js "?share_url=" ++ encoded) with
                     | Throw e => [query; create; failed e]
                     | Normal _ =>
                         [query; create;
                          Console log "Aegis Quick Share: Opened new Aegis tab with share URL"
                            None]
                     end
                 end
             | Normal (aegisTab :: _) =>
                 let activate := Call (tabs_update (id aegisTab) true) in
                 let focus := Call (windows_update (windowId aegisTab) true) in
                 let inject :=
                   Call (scripting_executeScript (id aegisTab)
                           (dispatchShareIntent_in_page u)) in
                 match tabs_update_result P (id aegisTab) true with
                 | Throw e => [query; activate; failed e]
                 | Normal _ =>
                     match windows_update_result P (windowId aegisTab) true with
                     | Throw e => [query; activate; focus; failed e]
                     | Normal _ =>
                         match executeScript_result P (id aegisTab)
                                 (dispatchShareIntent_in_page u) with
                         | Throw e => [query; activate; focus; inject; failed e]
                         | Normal _ =>
                             [query; activate; focus; inject;
                              Console log
                                "Aegis Quick Share: Dispatched share intent to existing tab"
                                None]
                         end
                     end
                 end
             end)
  /\ not_shareable (js "about:blank") = false
  /\ not_shareable (js "file:///home/user/notes.html") = false
  /\ not_shareable (js "edge://settings/") = false
  /\ not_shareable (js "Chrome://extensions/") = false
  /\ effects Samples.blank_page Samples.companion_open
     = [ Call (scripting_executeScript (Some 5) (clipboard_writeText (js "about:blank")));
         Console log "Aegis Quick Share: URL copied to clipboard" None;
         Call (tabs_query (js "https://aegis-e31n.onrender.com/*"));
         Call (tabs_update (Some 7) true);
         Call (windows_update 3 true);
         Call (scripting_executeScript (Some 7) (dispatchShareIntent_in_page (js "about:blank")));
         Console log "Aegis Quick Share: Dispatched share intent to existing tab" None ]
  /\ effects Samples.blank_page Samples.no_companion
     = [ Call (scripting_executeScript (Some 5) (clipboard_writeText (js "about:blank")));
         Console log "Aegis Quick Share: URL copied to clipboard" None;
         Call (tabs_query (js "https://aegis-e31n.onrender.com/*"));
         Call (tabs_create
                 (js "https://aegis-e31n.onrender.com/dashboard/social?share_url=about%3Ablank"));
         Console log "Aegis Quick Share: Opened new Aegis tab with share URL" None ].
Proof.
  assert (Hwarn : internal_page tab ->
            effects tab P = [Console warn "Aegis Quick Share: Cannot share this page type" None]).
  { intros H. apply internal_page_not_shareable in H. now apply effects_internal. }
  assert (Hdec : internal_page tab \/ exists u, url tab = Some u /\ not_shareable u = false).
  { destruct (tab_cases tab) as [H|H]; [left; now apply internal_page_not_shareable | now right]. }
  split; [|split].
  - split; [exact Hwarn|]. intros Heff.
    destruct Hdec as [H|(u & Hu & Hs)]; [exact H|].
    rewrite (effects_by_outcome tab P u Hu Hs) in Heff.
    unfold clipboard_log in Heff. discriminate Heff.
  - split.
    + intros H. destruct Hdec as [H'|(u & Hu & Hs)]; [contradiction|].
      exists u. split; [exact Hu|]. exact (effects_by_outcome tab P u Hu Hs).
    + intros (u & _ & Heff) H.
      rewrite (Hwarn H) in Heff. unfold clipboard_log in Heff. discriminate Heff.
  - repeat split; vm_compute; reflexivity.
Qed.

(* ================================================================== *)
(** ** The orchestrator: errors *)

(** X15. [handleShareAction] completes normally for every tab and every
    combination of platform answers. A rejected clipboard injection is
    caught inside [copyToClipboard], which logs it and completes normally,
    and the flow goes on to the tab query; an exception of the try region
    (the query, the encoding, a focus call, the injection or the creation) is
    caught by the top-level handler, which logs it as the last entry. *)
Theorem handleShareAction_never_throws (tab : Tab) (P : Platform) :
  outcome tab P = Normal tt
  /\ (forall text tabId tr e,
        executeScript_result P tabId (clipboard_writeText text) = Throw e ->
        copyToClipboard text tabId P tr
        = (Normal tt,
           tr ++ [ Call (scripting_executeScript tabId (clipboard_writeText text));
                   Console error "Aegis Quick Share: Failed to copy to clipboard" (Some e) ]))
  /\ (forall u,
        url tab = Some u -> not_shareable u = false ->
        tab_queries (effects tab P) = [APP_ORIGIN ++ js "/*"]
        /\ (forall e tr,
              share_region u P (clipboard_log P u (id tab)) = (Throw e, tr) ->
              effects tab P
              = tr ++ [Console error "Aegis Quick Share: Error during share action" (Some e)])
        /\ (forall e,
              query_result P (APP_ORIGIN ++ js "/*") = Throw e ->
              effects tab P
              = clipboard_log P u (id tab)
                ++ [ Call (tabs_query (APP_ORIGIN ++ js "/*"));
                     Console error "Aegis Quick Share: Error during share action" (Some e) ])).
Proof.
  split; [apply outcome_normal|]. split.
  - intros text tabId tr e He. rewrite copyToClipboard_run. unfold clipboard_log. now rewrite He.
  - intros u Hu Hs. split; [|split].
    + destruct (effects_shareable tab P u Hu Hs) as (after & -> & _ & Htq).
      destruct (projections_after_clipboard P u (id tab)
                  (Call (tabs_query (APP_ORIGIN ++ js "/*")) :: after)) as (_ & _ & -> & _).
      simpl. now rewrite Htq.
    + intros e tr Hregion. rewrite (effects_of_region tab P u Hu Hs). now rewrite Hregion.
    + intros e He. rewrite (effects_of_region tab P u Hu Hs), share_region_run. cbv zeta.
      rewrite He. now rewrite <- app_assoc.
Qed.

(** Every call fails: the handler still completes normally. *)
Example all_calls_fail :
  run (handleShareAction Samples.example_page) Samples.all_fail
  = (Normal tt,
     [ Call (scripting_executeScript (Some 1) (clipboard_writeText (js "https://example.com/a?x=1&y=2")));
       Console error "Aegis Quick Share: Failed to copy to clipboard" (Some (PlatformError 3));
       Call (tabs_query (js "https://aegis-e31n.onrender.com/*"));
       Console error "Aegis Quick Share: Error during share action" (Some (PlatformError 4)) ]).
Proof. vm_compute. reflexivity. Qed.

(* ================================================================== *)
(** ** The orchestrator: a companion tab is open *)

Section ExistingTab.

Variables (tab : Tab) (P : Platform) (u : jsstring) (aegisTab : Tab) (others : list Tab).
Hypothesis Hurl : url tab = Some u.
Hypothesis Hshareable : not_shareable u = false.
Hypothesis Hquery : query_result P (APP_ORIGIN ++ js "/*") = Normal (aegisTab :: others).

Let before : list event :=
  clipboard_log P u (id tab) ++ [Call (tabs_query (APP_ORIGIN ++ js "/*"))].
Let activate : event := Call (tabs_update (id aegisTab) true).
Let focus : event := Call (windows_update (windowId aegisTab) true).
Let inject : event :=
  Call (scripting_executeScript (id aegisTab) (dispatchShareIntent_in_page u)).
Let failed (e : exn) : event :=
  Console error "Aegis Quick Share: Error during share action" (Some e).

(** The whole log of the existing-tab branch, by the first step that fails. *)
Lemma existing_tab_effects :
  effects tab P =
  match tabs_update_result P (id aegisTab) true with
  | Throw e => before ++ [activate; failed e]
  | Normal _ =>
      match windows_update_result P (windowId aegisTab) true with
      | Throw e => before ++ [activate; focus; failed e]
      | Normal _ =>
          match executeScript_result P (id aegisTab) (dispatchShareIntent_in_page u) with
          | Throw e => before ++ [activate; focus; inject; failed e]
          | Normal _ =>
              before ++ [activate; focus; inject;
                         Console log "Aegis Quick Share: Dispatched share intent to existing tab"
                           None]
          end
      end
  end.
Proof.
  rewrite (effects_of_region tab P u Hurl Hshareable), share_region_run. cbv zeta.
  rewrite Hquery. unfold before, activate, focus, inject, failed.
  destruct (tabs_update_result P _ _) as [[]|e1];
    [destruct (windows_update_result P _ _) as [[]|e2];
      [destruct (executeScript_result P (id aegisTab) _) as [[]|e3]|]|];
    rewrite <- ?app_assoc; reflexivity.
Qed.

(** C10. In the existing-tab branch the steps run in the order tab
    activation, window focus, dispatcher injection; the first one that fails
    is the last call of the log, followed only by the top-level handler's
    error line. So a failed activation or a failed window focus leaves the
    log without a dispatcher injection, and no failure of this branch falls
    back to creating a tab. *)
Theorem existing_tab_steps_abort_on_failure :
  outcome tab P = Normal tt
  /\ created_tabs (effects tab P) = []
  /\ (forall e, tabs_update_result P (id aegisTab) true = Throw e ->
        effects tab P = before ++ [activate; failed e]
        /\ dispatcher_injections (effects tab P) = [])
  /\ (forall e, tabs_update_result P (id aegisTab) true = Normal tt ->
        windows_update_result P (windowId aegisTab) true = Throw e ->
        effects tab P = before ++ [activate; focus; failed e]
        /\ dispatcher_injections (effects tab P) = [])
  /\ (forall e, tabs_update_result P (id aegisTab) true = Normal tt ->
        windows_update_result P (windowId aegisTab) true = Normal tt ->
        executeScript_result P (id aegisTab) (dispatchShareIntent_in_page u) = Throw e ->
        effects tab P = before ++ [activate; focus; inject; failed e])
  /\ (tabs_update_result P (id aegisTab) true = Normal tt ->
      windows_update_result P (windowId aegisTab) true = Normal tt ->
      executeScript_result P (id aegisTab) (dispatchShareIntent_in_page u) = Normal tt ->
      effects tab P
      = before ++ [activate; focus; inject;
                   Console log "Aegis Quick Share: Dispatched share intent to existing tab" None]).
Proof.
  split; [apply outcome_normal|].
  rewrite existing_tab_effects. unfold before.
  split.
  - destruct (tabs_update_result P _ _) as [[]|e1];
      [destruct (windows_update_result P _ _) as [[]|e2];
        [destruct (executeScript_result P (id aegisTab) _) as [[]|e3]|]|];
      rewrite <- app_assoc;
      match goal with
      | |- created_tabs (clipboard_log ?p ?a ?t ++ ?l) = _ =>
          destruct (projections_after_clipboard p a t l) as (-> & _)
      end; reflexivity.
  - assert (Hinj : forall l, dispatcher_injections l = [] ->
                    dispatcher_injections (clipboard_log P u (id tab) ++ l) = []).
    { intros l Hl.
      destruct (projections_after_clipboard P u (id tab) l) as (_ & -> & _). exact Hl. }
    split; [|split; [|split]].
    + intros e H. rewrite H. split; [reflexivity|].
      rewrite <- app_assoc. now apply Hinj.
    + intros e H H0. rewrite H, H0. split; [reflexivity|].
      rewrite <- app_assoc. now apply Hinj.
    + intros e H H0 H1. now rewrite H, H0, H1.
    + intros H H0 H1. now rewrite H, H0, H1.
Qed.

(** C2, as the code has it. With one or more companion tabs in the answer
    to the query, no tab is created, and the first tab of the answer is the
    one activated, with one activation call. If the activation succeeds, that
    tab's window is focused; if both succeed, exactly one dispatcher injection
    is made, into that tab, with the original address. If the activation
    fails, it is the only focus call and no injection is made; if the focus
    of the window fails, no injection is made. *)
Theorem existing_tab_flow :
  created_tabs (effects tab P) = []
  /\ (exists more, focus_calls (effects tab P) = tabs_update (id aegisTab) true :: more)
  /\ (tabs_update_result P (id aegisTab) true = Normal tt ->
      focus_calls (effects tab P)
      = [tabs_update (id aegisTab) true; windows_update (windowId aegisTab) true])
  /\ (tabs_update_result P (id aegisTab) true = Normal tt ->
      windows_update_result P (windowId aegisTab) true = Normal tt ->
      dispatcher_injections (effects tab P) = [(id aegisTab, u)])
  /\ (dispatcher_injections (effects tab P) = []
      \/ dispatcher_injections (effects tab P) = [(id aegisTab, u)])
  /\ (forall e, tabs_update_result P (id aegisTab) true = Throw e ->
      focus_calls (effects tab P) = [tabs_update (id aegisTab) true]
      /\ dispatcher_injections (effects tab P) = [])
  /\ (forall e, windows_update_result P (windowId aegisTab) true = Throw e ->
      dispatcher_injections (effects tab P) = []).
Proof.
  rewrite existing_tab_effects. unfold before.
  destruct (tabs_update_result P _ _) as [[]|e1];
    [destruct (windows_update_result P _ _) as [[]|e2];
      [destruct (executeScript_result P (id aegisTab) _) as [[]|e3]|]|];
    rewrite <- app_assoc;
    match goal with
    | |- context [clipboard_log ?p ?a ?t ++ ?l] =>
        destruct (projections_after_clipboard p a t l) as (-> & -> & _ & ->)
    end; simpl;
    (split; [reflexivity|]); (split; [eexists; reflexivity|]);
    (split; [intros; try discriminate; reflexivity|]);
    (split; [intros; try discriminate; reflexivity|]);
    (split; [auto|]);
    (split; [intros; try discriminate; split; reflexivity|]);
    intros; try discriminate; reflexivity.
Qed.

End ExistingTab.

(** The activation of the companion tab fails: the window is not focused and
    nothing is injected. *)
Lemma existing_tab_steps_abort_on_failure_witness :
  effects Samples.example_page Samples.activation_fails
  = [ Call (scripting_executeScript (Some 1) (clipboard_writeText (js "https://example.com/a?x=1&y=2")));
      Console log "Aegis Quick Share: URL copied to clipboard" None;
      Call (tabs_query (js "https://aegis-e31n.onrender.com/*"));
      Call (tabs_update (Some 7) true);
      Console error "Aegis Quick Share: Error during share action" (Some (PlatformError 1)) ]
  /\ dispatcher_injections (effects Samples.example_page Samples.activation_fails) = [].
Proof.
  destruct (existing_tab_steps_abort_on_failure
              Samples.example_page Samples.activation_fails (js "https://example.com/a?x=1&y=2")
              Samples.companion_tab [Samples.other_companion_tab] eq_refl eq_refl eq_refl)
    as (_ & _ & H & _).
  exact (H (PlatformError 1) eq_refl).
Defined.

(** Every call succeeds: the first tab of the answer gets the one injection. *)
Lemma existing_tab_flow_witness :
  created_tabs (effects Samples.example_page Samples.companion_open) = []
  /\ focus_calls (effects Samples.example_page Samples.companion_open)
     = [tabs_update (Some 7) true; windows_update 3 true]
  /\ dispatcher_injections (effects Samples.example_page Samples.companion_open)
     = [(Some 7, js "https://example.com/a?x=1&y=2")].
Proof.
  destruct (existing_tab_flow
              Samples.example_page Samples.companion_open (js "https://example.com/a?x=1&y=2")
              Samples.companion_tab [Samples.other_companion_tab] eq_refl eq_refl eq_refl)
    as (Hc & _ & Hf & Hi & _).
  split; [exact Hc|]. split; [exact (Hf eq_refl) | exact (Hi eq_refl eq_refl)].
Defined.

(** Without the proviso the statement fails: the query answers with a companion tab, the
    activation of that tab is rejected, and no dispatcher injection is made. *)
Lemma existing_tab_always_injects_counterexample :
  ~ (forall (tab : Tab) (P : Platform) (u : jsstring) (aegisTab : Tab) (others : list Tab),
        url tab = Some u -> not_shareable u = false ->
        query_result P (APP_ORIGIN ++ js "/*") = Normal (aegisTab :: others) ->
        created_tabs (effects tab P) = []
        /\ focus_calls (effects tab P)
           = [tabs_update (id aegisTab) true; windows_update (windowId aegisTab) true]
        /\ dispatcher_injections (effects tab P) = [(id aegisTab, u)]).
Proof.
  intros H.
  destruct (H Samples.example_page Samples.activation_fails (js "https://example.com/a?x=1&y=2")
              Samples.companion_tab [Samples.other_companion_tab] eq_refl eq_refl eq_refl)
    as (_ & _ & Hinj).
  vm_compute in Hinj. discriminate Hinj.
Qed.

(* ================================================================== *)
(** ** The orchestrator: no companion tab is open *)

(** The tabs a shareable click creates, and its injections when the query
    finds no companion tab. *)
Lemma created_tabs_effects (tab : Tab) (P : Platform) (u : jsstring) :
  url tab = Some u -> not_shareable u = false ->
  created_tabs (effects tab P) =
    match query_result P (APP_ORIGIN ++ js "/*") with
    | Normal [] =>
        match URI.encodeURIComponent u with
        | Normal encoded => [DASHBOARD_URL ++ js "?share_url=" ++ encoded]
        | Throw _ => []
        end
    | _ => []
    end
  /\ (query_result P (APP_ORIGIN ++ js "/*") = Normal [] ->
      dispatcher_injections (effects tab P) = []).
Proof.
  intros Hu Hs. rewrite (effects_of_region tab P u Hu Hs), share_region_run. cbv zeta.
  destruct (query_result P (APP_ORIGIN ++ js "/*")) as [[|aegisTab others]|e].
  - destruct (URI.encodeURIComponent u) as [enc|e];
      [destruct (create_result P _) as [[]|e]|];
      rewrite <- ?app_assoc;
      match goal with
      | |- context [clipboard_log ?p ?a ?t ++ ?l] =>
          destruct (projections_after_clipboard p a t l) as (-> & -> & _)
      end; split; reflexivity.
  - split; [|discriminate].
    destruct (tabs_update_result P _ _) as [[]|e1];
      [destruct (windows_update_result P _ _) as [[]|e2];
        [destruct (executeScript_result P (id aegisTab) _) as [[]|e3]|]|];
      rewrite <- ?app_assoc;
      match goal with
      | |- context [clipboard_log ?p ?a ?t ++ ?l] =>
          destruct (projections_after_clipboard p a t l) as (-> & _)
      end; reflexivity.
  - split; [|discriminate]. rewrite <- app_assoc.
    match goal with
    | |- context [clipboard_log ?p ?a ?t ++ ?l] =>
        destruct (projections_after_clipboard p a t l) as (-> & _)
    end. reflexivity.
Qed.

(** C1. For every shareable address a browser reports (a well-formed
    string: no unpaired surrogate), when the query answers with no companion
    tab, the address has a percent-encoding and exactly one tab is created,
    at [https://aegis-e31n.onrender.com/dashboard/social?share_url=] followed
    by that encoding; no dispatcher injection is made on that path. *)
Theorem new_tab_for_well_formed_address (tab : Tab) (P : Platform) (u : jsstring) :
  url tab = Some u -> not_shareable u = false ->
  URI.isWellFormed u = true ->
  query_result P (APP_ORIGIN ++ js "/*") = Normal [] ->
  exists encoded,
    URI.encodeURIComponent u = Normal encoded
    /\ created_tabs (effects tab P)
       = [js "https://aegis-e31n.onrender.com/dashboard/social?share_url=" ++ encoded]
    /\ dispatcher_injections (effects tab P) = [].
Proof.
  intros Hu Hs Hwf Hq.
  destruct (URIFacts.encode_well_formed u Hwf) as [encoded Henc].
  destruct (created_tabs_effects tab P u Hu Hs) as [Hcreated Hinj].
  exists encoded. split; [exact Henc|]. split; [|exact (Hinj Hq)].
  rewrite Hcreated, Hq, Henc. reflexivity.
Qed.

(** The address [https://example.com/a?x=1&y=2]. *)
Lemma new_tab_for_well_formed_address_witness :
  created_tabs (effects Samples.example_page Samples.no_companion)
  = [js "https://aegis-e31n.onrender.com/dashboard/social?share_url=https%3A%2F%2Fexample.com%2Fa%3Fx%3D1%26y%3D2"]
  /\ dispatcher_injections (effects Samples.example_page Samples.no_companion) = [].
Proof.
  destruct (new_tab_for_well_formed_address Samples.example_page Samples.no_companion
              (js "https://example.com/a?x=1&y=2") eq_refl eq_refl eq_refl eq_refl)
    as (encoded & Henc & Hcreated & Hinj).
  split; [|exact Hinj].
  rewrite Hcreated.
  assert (Heq : encoded = js "https%3A%2F%2Fexample.com%2Fa%3Fx%3D1%26y%3D2").
  { vm_compute in Henc. injection Henc as <-. vm_compute. reflexivity. }
  rewrite Heq. vm_compute. reflexivity.
Defined.

(** An address without surrogate code units, such as the ASCII
    serialisation of a URL, is well formed. *)
Lemma isWellFormed_without_surrogates (u : jsstring) :
  Forall (fun c => CodeUnit.val c < 55296) u -> URI.isWellFormed u = true.
Proof.
  induction 1 as [|c u Hc Hu IH]; [reflexivity|].
  cbn [URI.isWellFormed]. cbv zeta.
  assert (Ht : URI.is_trail (CodeUnit.val c) = false).
  { destruct (URI.is_trail (CodeUnit.val c)) eqn:E; [|reflexivity].
    apply URIFacts.is_trail_spec in E. lia. }
  assert (Hl : URI.is_lead (CodeUnit.val c) = false).
  { destruct (URI.is_lead (CodeUnit.val c)) eqn:E; [|reflexivity].
    apply URIFacts.is_lead_spec in E. lia. }
  now rewrite Ht, Hl.
Qed.

(** A string with an unpaired surrogate, which no browser reports as the
    address of a tab: the encoding throws inside the try region. *)
Example ill_formed_address_run :
  run (handleShareAction Samples.ill_formed_page) Samples.no_companion
  = (Normal tt,
     [ Call (scripting_executeScript (Some 8) (clipboard_writeText Samples.lone_surrogate));
       Console log "Aegis Quick Share: URL copied to clipboard" None;
       Call (tabs_query (js "https://aegis-e31n.onrender.com/*"));
       Console error "Aegis Quick Share: Error during share action" (Some URIError) ]).
Proof. vm_compute. reflexivity. Qed.

(* ================================================================== *)
(** ** The round trip of the shared address *)

(** C6. Whenever the orchestrator creates a tab, the [share_url] parameter
    of that tab's address, percent-decoded, is exactly the address of the
    triggering tab. *)
Theorem share_url_round_trip (tab : Tab) (P : Platform) (u address : jsstring) :
  url tab = Some u ->
  In address (created_tabs (effects tab P)) ->
  exists raw,
    Query.param (js "share_url") address = Some raw
    /\ URI.decodeURIComponent raw = Normal u.
Proof.
  intros Hu Hin.
  destruct (not_shareable u) eqn:Hs.
  { exfalso. unfold effects, run, handleShareAction in Hin. rewrite Hu, Hs in Hin. exact Hin. }
  destruct (created_tabs_effects tab P u Hu Hs) as [Hcreated _]. rewrite Hcreated in Hin.
  destruct (query_result P (APP_ORIGIN ++ js "/*")) as [[|aegisTab others]|e];
    [|contradiction|contradiction].
  destruct (URI.encodeURIComponent u) as [encoded|e] eqn:Henc; [|contradiction].
  destruct Hin as [<-|[]].
  exists encoded. split.
  - apply QueryFacts.param_share_url;
      apply (QueryFacts.encoded_avoids u encoded _ Henc); (reflexivity || discriminate).
  - now apply URIFacts.decode_encode.
Qed.

Lemma share_url_round_trip_witness :
  exists raw,
    Query.param (js "share_url")
      (js "https://aegis-e31n.onrender.com/dashboard/social?share_url=https%3A%2F%2Fexample.com%2Fa%3Fx%3D1%26y%3D2")
    = Some raw
    /\ URI.decodeURIComponent raw = Normal (js "https://example.com/a?x=1&y=2").
Proof.
  apply (share_url_round_trip Samples.example_page Samples.no_companion).
  - reflexivity.
  - left. vm_compute. reflexivity.
Defined.

(* ================================================================== *)
(** ** The clipboard write itself *)

(** C7. The clause of the claim that the code breaks. The injected function
    does not return the promise of [writeText], so the injection resolves
    whether or not the write succeeds: when the page rejects the write, the
    clipboard is unchanged and the rejection is unhandled in the page, while
    [copyToClipboard] logs "URL copied to clipboard" and no "Failed to copy
    to clipboard" line appears anywhere in the log: the failure is neither
    caught nor logged. (The handler still completes normally.) *)
Theorem failed_clipboard_write_is_logged_as_copied
  (tab : Tab) (P : Platform) (u : jsstring) (e : exn) (s : Clipboard.state) :
  url tab = Some u -> not_shareable u = false ->
  executeScript_result P (id tab) (clipboard_writeText u)
  = fst (Clipboard.clipboard_func u (Throw e) s) ->
  Clipboard.contents (snd (Clipboard.clipboard_func u (Throw e) s)) = Clipboard.contents s
  /\ Clipboard.unhandled (snd (Clipboard.clipboard_func u (Throw e) s))
     = Clipboard.unhandled s ++ [e]
  /\ copyToClipboard u (id tab) P []
     = (Normal tt,
        [ Call (scripting_executeScript (id tab) (clipboard_writeText u));
          Console log "Aegis Quick Share: URL copied to clipboard" None ])
  /\ In (Console log "Aegis Quick Share: URL copied to clipboard" None) (effects tab P)
  /\ (forall e', ~ In (Console error "Aegis Quick Share: Failed to copy to clipboard" (Some e'))
                      (effects tab P))
  /\ outcome tab P = Normal tt.
Proof.
  intros Hu Hs Hinj. cbn [Clipboard.clipboard_func fst] in Hinj.
  split; [reflexivity|]. split; [reflexivity|].
  split; [rewrite copyToClipboard_run; unfold clipboard_log; now rewrite Hinj|].
  rewrite (effects_by_outcome tab P u Hu Hs). cbv zeta. unfold clipboard_log. rewrite Hinj.
  split; [cbn [app In]; auto|].
  split; [|apply outcome_normal].
  intros e' Hin.
  by_outcome P u; cbn [app In] in Hin; intuition discriminate.
Qed.

Lemma failed_clipboard_write_is_logged_as_copied_witness :
  Clipboard.contents
    (snd (Clipboard.clipboard_func (js "https://example.com/a?x=1&y=2")
            (Throw (DOMException "NotAllowedError")) (Clipboard.mkState None [])))
  = None
  /\ effects Samples.example_page Failures.write_refused
     = [ Call (scripting_executeScript (Some 1)
                 (clipboard_writeText (js "https://example.com/a?x=1&y=2")));
         Console log "Aegis Quick Share: URL copied to clipboard" None;
         Call (tabs_query (js "https://aegis-e31n.onrender.com/*"));
         Call (tabs_create (js "https://aegis-e31n.onrender.com/dashboard/social?share_url=https%3A%2F%2Fexample.com%2Fa%3Fx%3D1%26y%3D2"));
         Console log "Aegis Quick Share: Opened new Aegis tab with share URL" None ].
Proof.
  destruct (failed_clipboard_write_is_logged_as_copied
              Samples.example_page Failures.write_refused (js "https://example.com/a?x=1&y=2")
              (DOMException "NotAllowedError") (Clipboard.mkState None [])
              eq_refl eq_refl eq_refl) as (Hc & _).
  split; [exact Hc|]. vm_compute. reflexivity.
Defined.

(* ================================================================== *)
(** ** The dispatcher *)

Module PageFacts.
Import Page.

Lemma input_or_textarea_spec (el : element) :
  input_or_textarea el = true
  <-> tagName el = "INPUT"%string \/ tagName el = "TEXTAREA"%string.
Proof.
  unfold input_or_textarea. now rewrite orb_true_iff, !String.eqb_eq.
Qed.

(** An address has no line break: the sanitization of a single-line text
    field and the API value of a textarea leave it as it is. *)
Lemma strip_newlines_avoids (u : jsstring) :
  avoids 10 u -> avoids 13 u -> strip_newlines u = u.
Proof.
  unfold avoids, strip_newlines. intros Hlf Hcr.
  induction u as [|c u IH]; [reflexivity|].
  inversion Hlf as [|? ? Hc10 Hlf']; inversion Hcr as [|? ? Hc13 Hcr']; subst.
  cbn [filter].
  destruct (Z.eqb_spec (CodeUnit.val c) 10); [contradiction|].
  destruct (Z.eqb_spec (CodeUnit.val c) 13); [contradiction|].
  cbn [orb negb]. now rewrite IH.
Qed.

Lemma normalize_newlines_avoids (u : jsstring) : avoids 13 u -> normalize_newlines u = u.
Proof.
  unfold avoids. induction 1 as [|c u Hc Hu IH]; [reflexivity|].
  cbn [normalize_newlines].
  destruct (Z.eqb_spec (CodeUnit.val c) 13); [contradiction|]. now rewrite IH.
Qed.

Lemma text_field_setter (el : element) (u : jsstring) :
  text_field el -> avoids 10 u -> avoids 13 u ->
  input_or_textarea el = true
  /\ call_value_setter (prototype_of el) el u = Normal u.
Proof.
  intros [[Htag Himpl]|[Htag Himpl]] Hlf Hcr;
    unfold input_or_textarea, call_value_setter, prototype_of; rewrite Htag, Himpl; cbn.
  - now rewrite strip_newlines_avoids.
  - now rewrite normalize_newlines_avoids.
Qed.

Lemma text_field_with_value (el : element) (v : jsstring) :
  text_field el -> text_field (with_value el v).
Proof. intros H. exact H. Qed.

(** The delayed callback raises at most one notification, an "input" or a
    "paste", never a share intent. *)
Lemma run_task_dispatched (t : task) (p : page) :
  exists l,
    dispatched (run_task t p) = dispatched p ++ l
    /\ events_of_type "AEGIS_SHARE_INTENT" l = []
    /\ now (run_task t p) = now p.
Proof.
  destruct t as [u]. unfold run_task.
  destruct (activeElement p) as [el|];
    [destruct (input_or_textarea el);
      [destruct (call_value_setter (prototype_of el) el u)|]|];
    cbn;
    first [ exists []; rewrite app_nil_r; now auto
          | eexists [_]; (split; [reflexivity|]); now auto ].
Qed.

(** Firing timers only appends notifications, none of them the share intent. *)
Lemma fire_dispatched (t : Z) (q : list (Z * task)) :
  forall p, exists later,
    dispatched (fire t q p) = dispatched p ++ later
    /\ events_of_type "AEGIS_SHARE_INTENT" later = [].
Proof.
  induction q as [|[d k] q IH]; intros p; cbn [fire].
  - exists []. cbn. now rewrite app_nil_r.
  - destruct (d <=? t).
    + destruct (IH (run_task k p)) as (later & Hlater & Hnone).
      destruct (run_task_dispatched k p) as (l & Hl & Hty & _).
      exists (l ++ later). rewrite Hlater, Hl, <- app_assoc. split; [reflexivity|].
      unfold events_of_type in *. now rewrite filter_app, Hty, Hnone.
    + exists []. cbn. now rewrite app_nil_r.
Qed.

(** C8. [dispatchShareIntent] with URL [U] first raises the custom
    notification [AEGIS_SHARE_INTENT] on the window, with payload
    [{ url: U }]: when it returns, that is the only notification it has
    added, and the fallback is still a pending timer. It does not wait for
    the page: whatever time passes afterwards, the notification stays the
    first one added and nothing that follows is a second share intent. *)
Theorem dispatcher_raises_share_intent_first (U : jsstring) (p : page) (dt : Z) :
  let raised := mkEvent window "AEGIS_SHARE_INTENT" false false (detail U) in
  dispatched (dispatchShareIntent U p) = dispatched p ++ [raised]
  /\ timers (dispatchShareIntent U p) = enqueue (now p + 100) (auto_paste U) (timers p)
  /\ activeElement (dispatchShareIntent U p) = activeElement p
  /\ exists later,
       dispatched (advance dt (dispatchShareIntent U p)) = dispatched p ++ raised :: later
       /\ events_of_type "AEGIS_SHARE_INTENT" later = [].
Proof.
  cbv zeta. repeat split.
  unfold advance.
  destruct (fire_dispatched (now (dispatchShareIntent U p) + dt)
              (timers (dispatchShareIntent U p))
              (mkPage (activeElement (dispatchShareIntent U p))
                      (dispatched (dispatchShareIntent U p))
                      (now (dispatchShareIntent U p) + dt)
                      (timers (dispatchShareIntent U p))
                      (uncaught (dispatchShareIntent U p)))) as (later & Hlater & Hnone).
  exists later. split; [|exact Hnone].
  rewrite Hlater. cbn [dispatched dispatchShareIntent setTimeout dispatchEvent].
  now rewrite <- app_assoc.
Qed.

Section Fallback.

Variables (U : jsstring) (p : page) (focused : option element).
Hypothesis no_timer_pending : timers p = [].

Let raised : dom_event := mkEvent window "AEGIS_SHARE_INTENT" false false (detail U).
Let input_on (el : element) : dom_event :=
  mkEvent (on_element el) "input" true false no_payload.

(** The page after the dispatcher has run, the focus has moved to [focused],
    and [dt] time units have passed. *)
Let later (dt : Z) : page := advance dt (focus focused (dispatchShareIntent U p)).




End Fallback.



(** What the callback does on a focused checkbox and on a focused file
    input. *)
Example fallback_on_checkbox :
  let q := advance 100 (focus (Some PageSamples.remember_me)
                          (dispatchShareIntent (js "https://example.com/") PageSamples.fresh)) in
  activeElement q
  = Some (mkElement 3 "INPUT" (HTMLInputElement mode_default) (js "https://example.com/"))
  /\ map ev_type (dispatched q) = ["AEGIS_SHARE_INTENT"%string; "input"%string].
Proof. vm_compute. split; reflexivity. Qed.

Example fallback_on_file_input :
  let q := advance 100 (focus (Some PageSamples.attachment)
                          (dispatchShareIntent (js "https://example.com/") PageSamples.fresh)) in
  activeElement q = Some PageSamples.attachment
  /\ map ev_type (dispatched q) = ["AEGIS_SHARE_INTENT"%string]
  /\ uncaught q = [DOMException "InvalidStateError"].
Proof. vm_compute. repeat split; reflexivity. Qed.

(** Nothing but the page body has the focus: the URL is pasted on the
    document. *)
Example fallback_paste :
  dispatched (advance 100 (dispatchShareIntent (js "https://example.com/") PageSamples.fresh))
  = [ mkEvent window "AEGIS_SHARE_INTENT" false false (detail (js "https://example.com/"));
      mkEvent document "paste" true true
        (clipboardData [("text/plain"%string, js "https://example.com/")]) ].
Proof. vm_compute. reflexivity. Qed.

End PageFacts.

(* ================================================================== *)
(** * Further properties of the worker *)

(* ================================================================== *)
(** ** When a tab is created, when the dispatcher is injected *)

(** X1. A click creates at most one tab, and it creates one exactly when the
    tab's address is shareable and a well-formed string and the query
    resolves with no companion tab. *)
Theorem tab_created_exactly_when (tab : Tab) (P : Platform) :
  (created_tabs (effects tab P) = []
   \/ exists address, created_tabs (effects tab P) = [address])
  /\ ((exists address, created_tabs (effects tab P) = [address]) <->
      exists u, url tab = Some u /\ not_shareable u = false
                /\ URI.isWellFormed u = true
                /\ query_result P (APP_ORIGIN ++ js "/*") = Normal []).
Proof.
  destruct (tab_cases tab) as [Hint|(u & Hu & Hs)].
  - rewrite (effects_internal tab P Hint). cbn. split; [now left|]. split.
    + intros [address H]. discriminate.
    + intros (u & Hu & Hs & _). destruct Hint as [H|(u' & Hu' & Hs')]; congruence.
  - destruct (created_tabs_effects tab P u Hu Hs) as [-> _]. split.
    + destruct (query_result P (APP_ORIGIN ++ js "/*")) as [[|a l]|e]; auto.
      destruct (URI.encodeURIComponent u); eauto.
    + split.
      * intros [address H]. exists u.
        destruct (query_result P (APP_ORIGIN ++ js "/*")) as [[|a l]|e]; try discriminate H.
        destruct (URI.encodeURIComponent u) as [encoded|e] eqn:Hencode; try discriminate H.
        repeat split; auto. apply encode_normal_iff. eauto.
      * intros (u' & Hu' & _ & Hwf & Hq). assert (u' = u) by congruence. subst u'.
        rewrite Hq. destruct (URIFacts.encode_well_formed u Hwf) as [encoded ->]. eauto.
Qed.

(** X2. The dispatcher is injected at most once per click, and exactly when
    the address is shareable, the query resolves with a companion tab, and
    the activation of the first tab and the focus of its window both
    resolve; the injection goes to that first tab with the address as it
    is. *)
Theorem dispatcher_injected_exactly_when (tab : Tab) (P : Platform) :
  (dispatcher_injections (effects tab P) = []
   \/ exists target, dispatcher_injections (effects tab P) = [target])
  /\ (forall target, dispatcher_injections (effects tab P) = [target] <->
      exists u aegisTab others,
        url tab = Some u /\ not_shareable u = false
        /\ query_result P (APP_ORIGIN ++ js "/*") = Normal (aegisTab :: others)
        /\ tabs_update_result P (id aegisTab) true = Normal tt
        /\ windows_update_result P (windowId aegisTab) true = Normal tt
        /\ target = (id aegisTab, u)).
Proof.
  destruct (tab_cases tab) as [Hint|(u & Hu & Hs)].
  - rewrite (effects_internal tab P Hint). cbn. split; [now left|]. intros target. split.
    + discriminate.
    + intros (u & a & l & Hu & Hs & _). destruct Hint as [H|(u' & Hu' & Hs')]; congruence.
  - rewrite (effects_by_outcome tab P u Hu Hs). cbv zeta. split.
    + by_outcome P u; project_log; eauto.
    + intros target. split.
      * intros H. exists u.
        by_outcome P u; revert H; project_log; intros H; try discriminate H;
          injection H as <-; exists aegisTab, others; repeat split; auto.
      * intros (u' & a & l & Hu' & _ & Hq & Hup & Hwu & ->).
        assert (u' = u) by congruence. subst u'.
        rewrite Hq, Hup, Hwu.
        destruct (executeScript_result P (id a) (dispatchShareIntent_in_page u)) as [[]|e];
          project_log; reflexivity.
Qed.

(** X3. The two branches exclude each other: a click that creates a tab
    issues no focus call and no dispatcher injection. *)
Theorem creation_excludes_focus_and_injection (tab : Tab) (P : Platform) :
  created_tabs (effects tab P) = []
  \/ (focus_calls (effects tab P) = [] /\ dispatcher_injections (effects tab P) = []).
Proof.
  destruct (tab_cases tab) as [Hint|(u & Hu & Hs)].
  - rewrite (effects_internal tab P Hint). now left.
  - rewrite (effects_by_outcome tab P u Hu Hs). cbv zeta.
    by_outcome P u; project_log; auto.
Qed.

(** X4. Nothing is retried: a click issues at most five platform calls and
    no call twice. *)
Theorem no_call_issued_twice (tab : Tab) (P : Platform) :
  NoDup (calls (effects tab P)) /\ (List.length (calls (effects tab P)) <= 5)%nat.
Proof.
  destruct (tab_cases tab) as [Hint|(u & Hu & Hs)].
  - rewrite (effects_internal tab P Hint). cbn. split; [constructor | lia].
  - rewrite (effects_by_outcome tab P u Hu Hs). cbv zeta.
    by_outcome P u; project_log;
      (split; [|cbn [List.length]; lia]);
      repeat (constructor; [cbn [In]; intuition discriminate|]); constructor.
Qed.

(* ================================================================== *)
(** ** The new-tab branch: errors *)

(** X5. A shareable address that is not a well-formed string, with no
    companion tab open: the clipboard still receives the address, the query
    is made, the encoding throws a URIError that the top-level handler logs,
    and the creation of a tab is not even attempted. *)
Theorem ill_formed_address_is_logged (tab : Tab) (P : Platform) (u : jsstring) :
  url tab = Some u -> not_shareable u = false ->
  URI.isWellFormed u = false ->
  query_result P (APP_ORIGIN ++ js "/*") = Normal [] ->
  run (handleShareAction tab) P
  = (Normal tt,
     clipboard_log P u (id tab)
     ++ [ Call (tabs_query (APP_ORIGIN ++ js "/*"));
          Console error "Aegis Quick Share: Error during share action" (Some URIError) ]).
Proof.
  intros Hu Hs Hwf Hq.
  rewrite (surjective_pairing (run (handleShareAction tab) P)).
  change (fst (run (handleShareAction tab) P)) with (outcome tab P).
  change (snd (run (handleShareAction tab) P)) with (effects tab P).
  rewrite outcome_normal, (effects_by_outcome tab P u Hu Hs). cbv zeta.
  now rewrite Hq, (URIFacts.encode_ill_formed u Hwf).
Qed.

Lemma ill_formed_address_is_logged_witness :
  run (handleShareAction Samples.ill_formed_page) Samples.no_companion
  = (Normal tt,
     clipboard_log Samples.no_companion Samples.lone_surrogate (Some 8)
     ++ [ Call (tabs_query (APP_ORIGIN ++ js "/*"));
          Console error "Aegis Quick Share: Error during share action" (Some URIError) ]).
Proof.
  exact (ill_formed_address_is_logged Samples.ill_formed_page Samples.no_companion
           Samples.lone_surrogate eq_refl eq_refl eq_refl eq_refl).
Defined.

(** X6. When the browser refuses to create the tab, the creation has been
    asked for once, with the share address, its error is the last line of the
    log, and nothing else is tried: no second creation, no focus call, no
    injection into a companion tab. *)
Theorem failed_creation_is_logged
  (tab : Tab) (P : Platform) (u encoded : jsstring) (e : exn) :
  url tab = Some u -> not_shareable u = false ->
  query_result P (APP_ORIGIN ++ js "/*") = Normal [] ->
  URI.encodeURIComponent u = Normal encoded ->
  create_result P (DASHBOARD_URL ++ js "?share_url=" ++ encoded) = Throw e ->
  outcome tab P = Normal tt
  /\ effects tab P
     = clipboard_log P u (id tab)
       ++ [ Call (tabs_query (APP_ORIGIN ++ js "/*"));
            Call (tabs_create (DASHBOARD_URL ++ js "?share_url=" ++ encoded));
            Console error "Aegis Quick Share: Error during share action" (Some e) ]
  /\ focus_calls (effects tab P) = []
  /\ dispatcher_injections (effects tab P) = [].
Proof.
  intros Hu Hs Hq Henc Hc. split; [apply outcome_normal|].
  rewrite (effects_by_outcome tab P u Hu Hs). cbv zeta. rewrite Hq, Henc, Hc.
  project_log. auto.
Qed.

Lemma failed_creation_is_logged_witness :
  effects Samples.example_page Failures.creation_fails
  = [ Call (scripting_executeScript (Some 1) (clipboard_writeText (js "https://example.com/a?x=1&y=2")));
      Console log "Aegis Quick Share: URL copied to clipboard" None;
      Call (tabs_query (js "https://aegis-e31n.onrender.com/*"));
      Call (tabs_create (js "https://aegis-e31n.onrender.com/dashboard/social?share_url=https%3A%2F%2Fexample.com%2Fa%3Fx%3D1%26y%3D2"));
      Console error "Aegis Quick Share: Error during share action" (Some (PlatformError 5)) ].
Proof.
  destruct (failed_creation_is_logged Samples.example_page Failures.creation_fails
              (js "https://example.com/a?x=1&y=2")
              (js "https%3A%2F%2Fexample.com%2Fa%3Fx%3D1%26y%3D2") (PlatformError 5)
              eq_refl eq_refl eq_refl encode_example eq_refl) as (_ & H & _).
  rewrite H. vm_compute. reflexivity.
Defined.

(* ================================================================== *)
(** ** The existing-tab branch: only the first tab counts *)

(** X7. The companion tabs after the first one of the query's answer play no
    part: two browsers that differ only in those tabs see the same run. *)
Theorem other_companion_tabs_are_ignored
  (tab aegisTab : Tab) (others others' : list Tab)
  (inject : option Z -> injected_func -> completion unit)
  (query query' : jsstring -> completion (list Tab))
  (activate : option Z -> bool -> completion unit)
  (focus : Z -> bool -> completion unit)
  (create : jsstring -> completion unit) :
  query (APP_ORIGIN ++ js "/*") = Normal (aegisTab :: others) ->
  query' (APP_ORIGIN ++ js "/*") = Normal (aegisTab :: others') ->
  run (handleShareAction tab) (mkPlatform inject query activate focus create)
  = run (handleShareAction tab) (mkPlatform inject query' activate focus create).
Proof.
  intros Hq Hq'.
  set (P := mkPlatform inject query activate focus create).
  set (P' := mkPlatform inject query' activate focus create).
  rewrite (surjective_pairing (run (handleShareAction tab) P)),
          (surjective_pairing (run (handleShareAction tab) P')).
  change (fst (run (handleShareAction tab) P)) with (outcome tab P).
  change (fst (run (handleShareAction tab) P')) with (outcome tab P').
  change (snd (run (handleShareAction tab) P)) with (effects tab P).
  change (snd (run (handleShareAction tab) P')) with (effects tab P').
  rewrite !outcome_normal. f_equal.
  destruct (tab_cases tab) as [Hint|(u & Hu & Hs)].
  - now rewrite !(effects_internal tab _ Hint).
  - rewrite (effects_by_outcome tab P u Hu Hs), (effects_by_outcome tab P' u Hu Hs). cbv zeta.
    assert (HP : query_result P (APP_ORIGIN ++ js "/*") = Normal (aegisTab :: others))
      by exact Hq.
    assert (HP' : query_result P' (APP_ORIGIN ++ js "/*") = Normal (aegisTab :: others'))
      by exact Hq'.
    rewrite HP, HP'. reflexivity.
Qed.

Lemma other_companion_tabs_are_ignored_witness :
  run (handleShareAction Samples.example_page) Samples.companion_open
  = run (handleShareAction Samples.example_page)
      (mkPlatform (fun _ _ => Normal tt) (fun _ => Normal [Samples.companion_tab])
                  (fun _ _ => Normal tt) (fun _ _ => Normal tt) (fun _ => Normal tt)).
Proof.
  exact (other_companion_tabs_are_ignored Samples.example_page Samples.companion_tab
           [Samples.other_companion_tab] []
           (fun _ _ => Normal tt) (fun _ => Normal [Samples.companion_tab; Samples.other_companion_tab])
           (fun _ => Normal [Samples.companion_tab])
           (fun _ _ => Normal tt) (fun _ _ => Normal tt) (fun _ => Normal tt) eq_refl eq_refl).
Defined.

(* ================================================================== *)
(** ** The console lines tell the truth *)

(** X8. A success line is only logged after the call it speaks of has
    resolved: "URL copied to clipboard" after the clipboard injection,
    "Opened new Aegis tab" after the creation of the tab, "Dispatched share
    intent" after the activation, the focus and the dispatcher injection into
    the first companion tab. *)
Theorem success_lines_are_truthful (tab : Tab) (P : Platform) :
  (In (Console log "Aegis Quick Share: URL copied to clipboard" None) (effects tab P) ->
   exists u, url tab = Some u
             /\ executeScript_result P (id tab) (clipboard_writeText u) = Normal tt)
  /\ (In (Console log "Aegis Quick Share: Opened new Aegis tab with share URL" None)
         (effects tab P) ->
      exists u encoded,
        url tab = Some u /\ URI.encodeURIComponent u = Normal encoded
        /\ create_result P (DASHBOARD_URL ++ js "?share_url=" ++ encoded) = Normal tt)
  /\ (In (Console log "Aegis Quick Share: Dispatched share intent to existing tab" None)
         (effects tab P) ->
      exists u aegisTab others,
        url tab = Some u
        /\ query_result P (APP_ORIGIN ++ js "/*") = Normal (aegisTab :: others)
        /\ tabs_update_result P (id aegisTab) true = Normal tt
        /\ windows_update_result P (windowId aegisTab) true = Normal tt
        /\ executeScript_result P (id aegisTab) (dispatchShareIntent_in_page u) = Normal tt).
Proof.
  destruct (tab_cases tab) as [Hint|(u & Hu & Hs)].
  - rewrite (effects_internal tab P Hint).
    repeat split; intros [H|[]]; discriminate H.
  - rewrite (effects_by_outcome tab P u Hu Hs). cbv zeta. unfold clipboard_log.
    split; [|split]; intros H.
    + exists u. split; [exact Hu|].
      destruct (executeScript_result P (id tab) (clipboard_writeText u)) as [[]|e];
        [reflexivity|].
      exfalso. by_outcome P u; cbn [app In] in H; intuition discriminate.
    + exists u.
      destruct (executeScript_result P (id tab) (clipboard_writeText u)) as [[]|e'];
        by_outcome P u; cbn [app In] in H;
        try (exfalso; intuition discriminate); eauto.
    + exists u.
      destruct (executeScript_result P (id tab) (clipboard_writeText u)) as [[]|e'];
        by_outcome P u; cbn [app In] in H;
        try (exfalso; intuition discriminate); exists aegisTab, others; auto.
Qed.

(* ================================================================== *)
(** ** The address of the new tab *)

Lemma uriUnescaped_ascii (c : Z) : URI.uriUnescaped c = true -> 0 <= c < 128.
Proof.
  intros H.
  destruct (Z.lt_ge_cases c 0) as [Hneg|Hpos];
    [|destruct (Z.lt_ge_cases c 128) as [Hlow|Hhigh]; [lia|]];
    exfalso; revert H; unfold URI.uriUnescaped, URI.is_alpha, URI.is_digit, URI.is_mark;
    URIFacts.compare_cases; cbn [andb orb]; discriminate.
Qed.

Lemma created_address (tab : Tab) (P : Platform) (address : jsstring) :
  In address (created_tabs (effects tab P)) ->
  exists u encoded,
    url tab = Some u /\ URI.encodeURIComponent u = Normal encoded
    /\ address = DASHBOARD_URL ++ js "?share_url=" ++ encoded.
Proof.
  intros Hin.
  destruct (tab_cases tab) as [Hint|(u & Hu & Hs)].
  - rewrite (effects_internal tab P Hint) in Hin. contradiction.
  - destruct (created_tabs_effects tab P u Hu Hs) as [Hcreated _]. rewrite Hcreated in Hin.
    destruct (query_result P (APP_ORIGIN ++ js "/*")) as [[|a l]|e]; try contradiction.
    destruct (URI.encodeURIComponent u) as [encoded|e] eqn:Henc; try contradiction.
    destruct Hin as [<-|[]]. eauto.
Qed.

(** X9. Every address the worker opens lies under the companion origin: it
    begins with the part of the query's pattern that precedes the wildcard,
    so the new tab is one that the next click's query looks for. And it is
    pure ASCII, whatever characters the shared address holds. *)
Theorem created_address_is_on_the_companion_origin
  (tab : Tab) (P : Platform) (address : jsstring) :
  In address (created_tabs (effects tab P)) ->
  startsWith address (APP_ORIGIN ++ js "/") = true
  /\ Forall (fun c => CodeUnit.val c < 128) address.
Proof.
  intros Hin.
  destruct (created_address tab P address Hin) as (u & encoded & _ & Henc & ->).
  split; [reflexivity|].
  rewrite app_assoc. apply Forall_app; split.
  - apply Forall_forall. intros c Hc.
    assert (Hall : forallb (fun c => CodeUnit.val c <? 128) (DASHBOARD_URL ++ js "?share_url=")
                   = true) by reflexivity.
    rewrite forallb_forall in Hall. now apply Z.ltb_lt, Hall.
  - eapply Forall_impl;
      [|exact (QueryFacts.Encode_chars (List.length u) u encoded (Nat.le_refl _) Henc)].
    intros c [Hc|Hc]; [apply uriUnescaped_ascii in Hc|]; lia.
Qed.

Lemma created_address_is_on_the_companion_origin_witness :
  startsWith
    (js "https://aegis-e31n.onrender.com/dashboard/social?share_url=https%3A%2F%2Fexample.com%2Fcaf%C3%A9%3Fq%3D%F0%9F%98%80%26r%3Da%2Bb%23top")
    (js "https://aegis-e31n.onrender.com/") = true
  /\ Forall (fun c => CodeUnit.val c < 128)
       (js "https://aegis-e31n.onrender.com/dashboard/social?share_url=https%3A%2F%2Fexample.com%2Fcaf%C3%A9%3Fq%3D%F0%9F%98%80%26r%3Da%2Bb%23top").
Proof.
  apply (created_address_is_on_the_companion_origin Failures.unicode_page Samples.no_companion).
  left. vm_compute. reflexivity.
Defined.

(** X10. The query of every address the worker opens is the one parameter
    [share_url]: the separators of the shared address ('#', '&', '+', '=',
    '?') only appear percent-encoded in its value, so the shared address
    cannot cut the value short or add a parameter of its own. *)
Theorem created_address_has_one_parameter
  (tab : Tab) (P : Platform) (address : jsstring) :
  In address (created_tabs (effects tab P)) ->
  exists u encoded,
    url tab = Some u /\ URI.encodeURIComponent u = Normal encoded
    /\ Query.search address = Some (js "share_url=" ++ encoded)
    /\ Query.split_on 38 (js "share_url=" ++ encoded) = [js "share_url=" ++ encoded]
    /\ Forall (fun sep => avoids sep encoded) [35; 38; 43; 61; 63].
Proof.
  intros Hin.
  destruct (created_address tab P address Hin) as (u & encoded & Hu & Henc & ->).
  exists u, encoded. split; [exact Hu|]. split; [exact Henc|].
  assert (Hsep : Forall (fun sep => avoids sep encoded) [35; 38; 43; 61; 63]).
  { repeat constructor;
      apply (QueryFacts.encoded_avoids u encoded _ Henc); (reflexivity || discriminate). }
  assert (H35 : avoids 35 encoded) by (inversion Hsep; assumption).
  assert (H38 : avoids 38 encoded).
  { inversion Hsep as [|? ? _ Hrest]. inversion Hrest. assumption. }
  split; [|split; [|exact Hsep]].
  - unfold Query.search. rewrite QueryFacts.take_until_avoids.
    + reflexivity.
    + rewrite app_assoc.
      apply Forall_app; split; [apply QueryFacts.avoids_forallb; reflexivity | exact H35].
  - apply QueryFacts.split_on_avoids.
    apply Forall_app; split; [apply QueryFacts.avoids_forallb; reflexivity | exact H38].
Qed.

Lemma created_address_has_one_parameter_witness :
  exists u encoded,
    url Failures.unicode_page = Some u /\ URI.encodeURIComponent u = Normal encoded
    /\ Query.search
         (js "https://aegis-e31n.onrender.com/dashboard/social?share_url=https%3A%2F%2Fexample.com%2Fcaf%C3%A9%3Fq%3D%F0%9F%98%80%26r%3Da%2Bb%23top")
       = Some (js "share_url=" ++ encoded)
    /\ Query.split_on 38 (js "share_url=" ++ encoded) = [js "share_url=" ++ encoded]
    /\ Forall (fun sep => avoids sep encoded) [35; 38; 43; 61; 63].
Proof.
  apply (created_address_has_one_parameter Failures.unicode_page Samples.no_companion).
  left. vm_compute. reflexivity.
Defined.

(** X14. Different shared addresses never give the same new-tab address:
    when two clicks (on any tabs, in any state of the browser) open the same
    address, the two tabs they were made on have the same address. *)
Theorem created_address_determines_shared_address
  (tab tab' : Tab) (P P' : Platform) (address : jsstring) :
  In address (created_tabs (effects tab P)) ->
  In address (created_tabs (effects tab' P')) ->
  url tab = url tab'.
Proof.
  intros Hin Hin'.
  destruct (created_address tab P address Hin) as (u & encoded & Hu & Henc & Ha).
  destruct (created_address tab' P' address Hin') as (u' & encoded' & Hu' & Henc' & Ha').
  rewrite Ha in Ha'. rewrite !app_assoc in Ha'. apply app_inv_head in Ha'. subst encoded'.
  apply URIFacts.decode_encode in Henc, Henc'.
  rewrite Hu, Hu'. congruence.
Qed.

Lemma created_address_determines_shared_address_witness :
  url Samples.example_page = url (mkTab (Some 42) (Some (js "https://example.com/a?x=1&y=2")) 9).
Proof.
  apply (created_address_determines_shared_address
           Samples.example_page (mkTab (Some 42) (Some (js "https://example.com/a?x=1&y=2")) 9)
           Samples.no_companion Failures.creation_fails
           (js "https://aegis-e31n.onrender.com/dashboard/social?share_url=https%3A%2F%2Fexample.com%2Fa%3Fx%3D1%26y%3D2")).
  - left. vm_compute. reflexivity.
  - left. vm_compute. reflexivity.
Defined.

(* ================================================================== *)
(** * Further properties of the dispatcher *)

Module DispatcherFacts.
Import Page Sessions.

Lemma run_task_focus (t : task) (p : page) :
  option_map node (activeElement (run_task t p)) = option_map node (activeElement p)
  /\ option_map tagName (activeElement (run_task t p)) = option_map tagName (activeElement p)
  /\ ((forall el, activeElement p = Some el -> input_or_textarea el = false) ->
      activeElement (run_task t p) = activeElement p).
Proof.
  destruct t as [u]. unfold run_task.
  destruct (activeElement p) as [el|] eqn:Hel; [|cbn; rewrite Hel; auto].
  destruct (input_or_textarea el) eqn:Htext;
    [destruct (call_value_setter (prototype_of el) el u)|];
    cbn; rewrite ?Hel; repeat split; auto;
    intros H; specialize (H el eq_refl); congruence.
Qed.

Lemma fire_focus (t : Z) (q : list (Z * task)) :
  forall p,
    option_map node (activeElement (fire t q p)) = option_map node (activeElement p)
    /\ option_map tagName (activeElement (fire t q p)) = option_map tagName (activeElement p)
    /\ ((forall el, activeElement p = Some el -> input_or_textarea el = false) ->
        activeElement (fire t q p) = activeElement p).
Proof.
  induction q as [|[d k] q IH]; intros p; cbn [fire].
  - cbn. auto.
  - destruct (d <=? t); [|cbn; auto].
    destruct (IH (run_task k p)) as (Hn & Ht & Hv).
    destruct (run_task_focus k p) as (Hn' & Ht' & Hv').
    split; [congruence|]. split; [congruence|].
    intros Hno. rewrite Hv; [now apply Hv'|].
    rewrite (Hv' Hno). exact Hno.
Qed.

(** X11. The dispatcher never moves the focus: whatever timers are pending
    and however much time passes, the focused element is the same node with
    the same tag as before the injection; and when it is not a text field
    (or nothing is focused), it is left exactly as it was, value included. *)
Theorem dispatcher_never_moves_focus (U : jsstring) (p : page) (dt : Z) :
  option_map node (activeElement (advance dt (dispatchShareIntent U p)))
  = option_map node (activeElement p)
  /\ option_map tagName (activeElement (advance dt (dispatchShareIntent U p)))
     = option_map tagName (activeElement p)
  /\ ((forall el, activeElement p = Some el -> input_or_textarea el = false) ->
      activeElement (advance dt (dispatchShareIntent U p)) = activeElement p).
Proof.
  unfold advance.
  exact (fire_focus _ _
           (mkPage (activeElement (dispatchShareIntent U p))
                   (dispatched (dispatchShareIntent U p))
                   (now (dispatchShareIntent U p) + dt)
                   (timers (dispatchShareIntent U p))
                   (uncaught (dispatchShareIntent U p)))).
Qed.

(** Timers that are due together run in the order they were set. *)
Lemma enqueue_same_due (d : Z) (t : task) (urls : list jsstring) :
  enqueue d t (map (fun u => (d, auto_paste u)) urls)
  = map (fun u => (d, auto_paste u)) urls ++ [(d, t)].
Proof.
  induction urls as [|u urls IH]; [reflexivity|].
  cbn [map enqueue app]. now rewrite Z.leb_refl, IH.
Qed.

Lemma dispatch_all_state (urls : list jsstring) :
  forall (p : page) (before : list jsstring),
    timers p = map (fun u => (now p + 100, auto_paste u)) before ->
    timers (dispatch_all urls p) = map (fun u => (now p + 100, auto_paste u)) (before ++ urls)
    /\ dispatched (dispatch_all urls p) = dispatched p ++ map share_intent urls
    /\ activeElement (dispatch_all urls p) = activeElement p
    /\ now (dispatch_all urls p) = now p
    /\ uncaught (dispatch_all urls p) = uncaught p.
Proof.
  induction urls as [|u urls IH]; intros p before Hp.
  - cbn. now rewrite !app_nil_r.
  - change (dispatch_all (u :: urls) p) with (dispatch_all urls (dispatchShareIntent u p)).
    destruct (IH (dispatchShareIntent u p) (before ++ [u])) as (Ht & Hd & Ha & Hn & Hu).
    + cbn [dispatchShareIntent setTimeout dispatchEvent timers now].
      now rewrite Hp, enqueue_same_due, map_app.
    + rewrite Ht, Hd, Ha, Hn, Hu. cbn [dispatchShareIntent setTimeout dispatchEvent
                                         timers now dispatched activeElement map uncaught].
      now rewrite <- !app_assoc.
Qed.

Lemma last_cons {A : Type} (x d : A) (l : list A) : last (x :: l) d = last l x.
Proof.
  revert x d; induction l as [|y l IH]; intros x d; [reflexivity|].
  change (last (x :: y :: l) d) with (last (y :: l) d). now rewrite !IH.
Qed.

Lemma fire_on_text_field (t d : Z) (urls : list jsstring) :
  forall (p : page) (el : element),
    d <= t -> activeElement p = Some el -> text_field el ->
    Forall (fun u => avoids 10 u /\ avoids 13 u) urls ->
    fire t (map (fun u => (d, auto_paste u)) urls) p
    = mkPage (Some (with_value el (last urls (value el))))
             (dispatched p ++ map (fun u => input_on (with_value el u)) urls)
             (now p) [] (uncaught p).
Proof.
  induction urls as [|u urls IH]; intros p el Hd Hel Htext Hurls.
  - cbn. rewrite app_nil_r, Hel. now destruct el.
  - inversion Hurls as [|? ? [Hlf Hcr] Hrest]; subst.
    cbn [map fire]. destruct (Z.leb_spec d t); [|lia].
    destruct (PageFacts.text_field_setter el u Htext Hlf Hcr) as [Htag Hset].
    assert (Hrun : run_task (auto_paste u) p
                   = mkPage (Some (with_value el u))
                            (dispatched p ++ [input_on (with_value el u)])
                            (now p) (timers p) (uncaught p)).
    { unfold run_task. now rewrite Hel, Htag, Hset. }
    rewrite Hrun.
    rewrite (IH (mkPage (Some (with_value el u))
                        (dispatched p ++ [input_on (with_value el u)])
                        (now p) (timers p) (uncaught p))
                (with_value el u) Hd eq_refl
                (PageFacts.text_field_with_value el u Htext) Hrest).
    cbn [dispatched now value with_value node tagName implements uncaught].
    rewrite last_cons, <- app_assoc. reflexivity.
Qed.

(** X12. Several shares in a row, into a page whose focused element is a
    text field (single-line or multi-line), of addresses (no line break):
    once the delay has passed the share intents have been raised in the
    order of the shares, then one "input" notification per share in the same
    order, and the field holds the address of the last share. *)
Theorem shares_in_a_row (urls : list jsstring) (p : page) (el : element) :
  timers p = [] -> activeElement p = Some el -> text_field el ->
  Forall (fun u => avoids 10 u /\ avoids 13 u) urls ->
  activeElement (advance 100 (dispatch_all urls p))
  = Some (with_value el (last urls (value el)))
  /\ dispatched (advance 100 (dispatch_all urls p))
     = dispatched p ++ map share_intent urls
       ++ map (fun u => input_on (with_value el u)) urls
  /\ timers (advance 100 (dispatch_all urls p)) = []
  /\ uncaught (advance 100 (dispatch_all urls p)) = uncaught p.
Proof.
  intros Htimers Hel Htext Hurls.
  destruct (dispatch_all_state urls p [] Htimers) as (Ht & Hd & Ha & Hn & Hu).
  unfold advance. rewrite Ht, Hn. cbn [app].
  match goal with
  | |- context [fire ?t _ ?pg] =>
      rewrite (fire_on_text_field t t urls pg el (Z.le_refl _) (eq_trans Ha Hel) Htext Hurls)
  end.
  cbn [activeElement dispatched timers uncaught]. rewrite Hd, Hu, <- app_assoc. auto.
Qed.

Lemma shares_in_a_row_witness :
  activeElement (advance 100 (dispatch_all [js "https://a.example/"; js "https://b.example/"]
                                form_focused))
  = Some (with_value PageSamples.share_form (js "https://b.example/"))
  /\ dispatched (advance 100 (dispatch_all [js "https://a.example/"; js "https://b.example/"]
                                form_focused))
     = [ share_intent (js "https://a.example/"); share_intent (js "https://b.example/");
         input_on (with_value PageSamples.share_form (js "https://a.example/"));
         input_on (with_value PageSamples.share_form (js "https://b.example/")) ].
Proof.
  destruct (shares_in_a_row [js "https://a.example/"; js "https://b.example/"] form_focused
              PageSamples.share_form eq_refl eq_refl (or_introl (conj eq_refl eq_refl)))
    as (Ha & Hd & _).
  - apply Forall_cons; [split; apply QueryFacts.avoids_forallb; reflexivity|].
    apply Forall_cons; [split; apply QueryFacts.avoids_forallb; reflexivity|].
    apply Forall_nil.
  - split; [exact Ha | exact Hd].
Defined.

(** X13. Two shares of addresses (no line break), the second one [d] time
    units after the first (0 < d < 100), into a page whose focused element
    is a text field: each fallback runs at its own time. 100 units after the
    first share the field holds the first address and the second fallback is
    still pending; 100 units after the second share the field holds the
    second address and two "input" notifications have been raised, in the
    order of the shares. *)
Theorem staggered_shares (U1 U2 : jsstring) (p : page) (el : element) (d : Z) :
  timers p = [] -> activeElement p = Some el -> text_field el ->
  (avoids 10 U1 /\ avoids 13 U1) -> (avoids 10 U2 /\ avoids 13 U2) ->
  0 < d < 100 ->
  let second := dispatchShareIntent U2 (advance d (dispatchShareIntent U1 p)) in
  (activeElement (advance (100 - d) second) = Some (with_value el U1)
   /\ timers (advance (100 - d) second) = [(now p + d + 100, auto_paste U2)])
  /\ (activeElement (advance 100 second) = Some (with_value el U2)
      /\ dispatched (advance 100 second)
         = dispatched p ++ [ share_intent U1; share_intent U2;
                             input_on (with_value el U1);
                             input_on (with_value el U2) ]
      /\ timers (advance 100 second) = []).
Proof.
  intros Htimers Hel Htext [Hlf1 Hcr1] [Hlf2 Hcr2] Hd.
  destruct (PageFacts.text_field_setter el U1 Htext Hlf1 Hcr1) as [Htag Hset1].
  destruct (PageFacts.text_field_setter (with_value el U1) U2
              (PageFacts.text_field_with_value el U1 Htext) Hlf2 Hcr2) as [_ Hset2].
  assert (Hfirst : advance d (dispatchShareIntent U1 p)
                   = mkPage (Some el) (dispatched p ++ [share_intent U1]) (now p + d)
                            [(now p + 100, auto_paste U1)] (uncaught p)).
  { unfold advance, dispatchShareIntent, setTimeout, dispatchEvent.
    cbn [timers now dispatched activeElement uncaught]. rewrite Htimers, Hel.
    cbn [enqueue fire]. destruct (Z.leb_spec (now p + 100) (now p + d)); [lia|]. reflexivity. }
  cbv zeta. rewrite Hfirst.
  unfold advance, dispatchShareIntent, setTimeout, dispatchEvent.
  cbn [timers now dispatched activeElement uncaught enqueue].
  destruct (Z.leb_spec (now p + 100) (now p + d + 100)); [|lia].
  cbn [fire].
  destruct (Z.leb_spec (now p + 100) (now p + d + (100 - d))); [|lia].
  destruct (Z.leb_spec (now p + 100) (now p + d + 100)); [|lia].
  destruct (Z.leb_spec (now p + d + 100) (now p + d + (100 - d))); [lia|].
  destruct (Z.leb_spec (now p + d + 100) (now p + d + 100)); [|lia].
  unfold run_task. cbn [activeElement dispatched now timers uncaught].
  rewrite Htag, Hset1. cbn [dispatchEvent activeElement dispatched now timers uncaught].
  change (input_or_textarea (with_value el U1)) with (input_or_textarea el). rewrite Htag.
  rewrite Hset2.
  cbn [dispatchEvent activeElement dispatched now timers uncaught fire with_value
       node tagName implements value].
  rewrite <- !app_assoc. cbn [app]. repeat split.
Qed.

Lemma staggered_shares_witness :
  activeElement
    (advance 60 (dispatchShareIntent (js "https://b.example/")
                   (advance 40 (dispatchShareIntent (js "https://a.example/") form_focused))))
  = Some (with_value PageSamples.share_form (js "https://a.example/"))
  /\ activeElement
       (advance 100 (dispatchShareIntent (js "https://b.example/")
                       (advance 40 (dispatchShareIntent (js "https://a.example/") form_focused))))
     = Some (with_value PageSamples.share_form (js "https://b.example/")).
Proof.
  destruct (staggered_shares (js "https://a.example/") (js "https://b.example/") form_focused
              PageSamples.share_form 40 eq_refl eq_refl (or_introl (conj eq_refl eq_refl)))
    as ((H1 & _) & (H2 & _)).
  - split; apply QueryFacts.avoids_forallb; reflexivity.
  - split; apply QueryFacts.avoids_forallb; reflexivity.
  - split; reflexivity.
  - split; [exact H1 | exact H2].
Defined.

(** X16. When the native setter refuses the address (it throws, as the
    setter of a file input does on any non-empty string), the callback ends
    there: the element is untouched, no "input" and no "paste" notification
    is raised, and the exception is left uncaught in the page. *)
Theorem refused_value_ends_the_fallback
  (U : jsstring) (p : page) (el : element) (e : exn) (dt : Z) :
  timers p = [] -> activeElement p = Some el ->
  tagName el = "INPUT"%string \/ tagName el = "TEXTAREA"%string ->
  call_value_setter (prototype_of el) el U = Throw e ->
  100 <= dt ->
  activeElement (advance dt (dispatchShareIntent U p)) = Some el
  /\ dispatched (advance dt (dispatchShareIntent U p)) = dispatched p ++ [share_intent U]
  /\ uncaught (advance dt (dispatchShareIntent U p)) = uncaught p ++ [e]
  /\ timers (advance dt (dispatchShareIntent U p)) = [].
Proof.
  intros Htimers Hel Htag Hset Hdt. apply PageFacts.input_or_textarea_spec in Htag.
  unfold advance, dispatchShareIntent, setTimeout, dispatchEvent.
  cbn [timers now dispatched activeElement uncaught]. rewrite Htimers.
  cbn [enqueue fire]. destruct (Z.leb_spec (now p + 100) (now p + dt)); [|lia].
  unfold run_task. cbn [activeElement dispatched now timers uncaught].
  rewrite Hel, Htag, Hset. cbn. auto.
Qed.

Lemma refused_value_ends_the_fallback_witness :
  activeElement (advance 100 (dispatchShareIntent (js "https://example.com/")
                                (focus (Some PageSamples.attachment) PageSamples.fresh)))
  = Some PageSamples.attachment
  /\ dispatched (advance 100 (dispatchShareIntent (js "https://example.com/")
                                (focus (Some PageSamples.attachment) PageSamples.fresh)))
     = [share_intent (js "https://example.com/")]
  /\ uncaught (advance 100 (dispatchShareIntent (js "https://example.com/")
                              (focus (Some PageSamples.attachment) PageSamples.fresh)))
     = [DOMException "InvalidStateError"].
Proof.
  destruct (refused_value_ends_the_fallback (js "https://example.com/")
              (focus (Some PageSamples.attachment) PageSamples.fresh)
              PageSamples.attachment (DOMException "InvalidStateError") 100
              eq_refl eq_refl (or_introl eq_refl) eq_refl ltac:(lia)) as (Ha & Hd & Hu & _).
  repeat split; assumption.
Defined.

End DispatcherFacts.
